(** * print.printer: printer resolution and lpr spooling

    A shallow embedding of [addons/print/models/print_printer.py] (Odoo 11/12,
    Python 3).  The database tables the model touches, the host operating
    system and the report registry are explicit: the tables and the log of
    started processes form the [World] that every method threads through, the
    host and the registry are read from an [Env].  Python exceptions are the
    [Raised] outcomes of a state-and-exception monad. *)

From Stdlib Require Import ZArith String Ascii DecimalString List Lia.
From Stdlib.Strings Require Import Byte.
From stdpp Require Import gmap strings list.
Import ListNotations.

Open Scope string_scope.
Open Scope list_scope.

(** ** Python values *)

(** [bytes] objects: what [report.render] produces and what
    [Popen.communicate] captures when no text mode is requested. *)
Definition bytes := list byte.

(** [str(n)] for a Python [int]. *)
Definition str_int (z : Z) : string := NilZero.string_of_int (Z.to_int z).

(** [str(l)] for a list of ints: the items separated by a comma and a space,
    in square brackets. *)
Definition str_int_list (l : list Z) : string :=
  "[" +:+ String.concat ", " (map str_int l) +:+ "]".

(** [str(t)] for a tuple of ints: a one-element tuple keeps its comma. *)
Definition str_int_tuple (l : list Z) : string :=
  match l with
  | [x] => "(" +:+ str_int x +:+ ",)"
  | _ => "(" +:+ String.concat ", " (map str_int l) +:+ ")"
  end.

Definition squote : ascii := "'"%char.
Definition dquote : ascii := "034"%char.
Definition backslash : ascii := "092"%char.

Definition hexdigit (n : N) : ascii :=
  match String.get (N.to_nat n) "0123456789abcdef" with
  | Some c => c
  | None => "0"%char
  end.

(** One byte of [repr(b)] for a [bytes] object [b], as CPython writes it. *)
Definition repr_byte (quote : ascii) (b : byte) : string :=
  let c := ascii_of_byte b in
  let n := Byte.to_N b in
  if (Ascii.eqb c quote || Ascii.eqb c backslash)%bool
  then String backslash (String c EmptyString)
  else if (n =? 9)%N then String backslash "t"
  else if (n =? 10)%N then String backslash "n"
  else if (n =? 13)%N then String backslash "r"
  else if ((n <? 32) || (127 <=? n))%N
  then String backslash
         (String "x" (String (hexdigit (n / 16)) (String (hexdigit (n mod 16)) EmptyString)))
  else String c EmptyString.

Definition has_byte (c : ascii) (bs : bytes) : bool :=
  existsb (fun b => Ascii.eqb (ascii_of_byte b) c) bs.

(** [str(b)] and [repr(b)] of a [bytes] object: this is what the [%s]
    conversion inserts for the captured output of the child process. *)
Definition bytes_repr (bs : bytes) : string :=
  let quote := if (has_byte squote bs && negb (has_byte dquote bs))%bool
               then dquote else squote in
  "b" +:+ String quote (String.concat EmptyString (map (repr_byte quote) bs))
      +:+ String quote EmptyString.

(** The text a [bytes] object holds, one character per byte. *)
Definition decode (bs : bytes) : string := string_of_list_byte bs.

(** Bytes that [repr] writes as they are, under either quote. *)
Definition plain_byte (b : byte) : bool :=
  let n := Byte.to_N b in
  ((32 <=? n) && (n <? 127) && negb (n =? 39) && negb (n =? 34)
   && negb (n =? 92))%N.

(** [s in t] for Python strings. *)
Fixpoint contains (s t : string) : bool :=
  (String.prefix s t ||
   match t with
   | EmptyString => false
   | String _ t' => contains s t'
   end)%bool.

Definition substring_of (s t : string) : Prop :=
  exists pre post, t = pre +:+ s +:+ post.

(** Truth value of a [Char] field: [False] (no value) and the empty string
    are both falsy. *)
Definition truthy (v : option string) : bool :=
  match v with
  | Some s => negb (String.eqb s EmptyString)
  | None => false
  end.

(** ** Exceptions *)

Inductive exn : Type :=
| UserError (msg : string)
| ValueError (msg : string)
| MissingError
| IntegrityError (constraint : string).

(** The error conditions of the design, as the exceptions the code raises.
    The translation function of [odoo.tools.translate] returns its argument
    when no catalogue is loaded; messages are modelled in that source
    language. *)
Definition NoPrinterConfigured : exn := UserError "No default printer specified".
Definition SpoolExecutableNotFound : exn := UserError "Cannot find lpr executable".
Definition UnsupportedPlatform (platform : string) : exn :=
  UserError ("Cannot print on OS: " +:+ platform).
Definition SpoolFailure (exitCode : Z) (capturedOutput : bytes) : exn :=
  UserError ("lpr failed (error code: " +:+ str_int exitCode
             +:+ "). Message: " +:+ bytes_repr capturedOutput).
Definition ReportNotFound (name : string) : exn :=
  UserError ("Undefined report " +:+ name).

Inductive outcome (A : Type) : Type :=
| Raised (e : exn)
| Returned (a : A).
Arguments Raised {A} e.
Arguments Returned {A} a.

(** ** Records and tables *)

Module Printer.
(** A row of [print_printer]. *)
Record t : Type := mk {
  id : nat;
  name : string;
  barcode : option string;
  queue : option string;
  is_default : bool
}.

Definition set_is_default (v : bool) (p : t) : t :=
  {| id := id p; name := name p; barcode := barcode p; queue := queue p;
     is_default := v |}.
End Printer.

Module Report.
(** A row of [ir.actions.report], as far as spooling reads it. *)
Record t : Type := mk {
  id : nat;
  name : string
}.
End Report.

(** A recordset of [print.printer]: the ids it holds, in order. *)
Definition recordset := list nat.

(** The [data] dictionary handed through to the renderer. *)
Definition ReportData := list (string * string).

(** A started child process: its command line and what was written to its
    standard input. *)
Record Spawn : Type := mkSpawn {
  argv : list string;
  stdin : bytes
}.

(** The mutable state: the [print_printer] table (rows in id order), the
    [printer_id] column of [res_users] and the processes started so far,
    oldest first. *)
Record World : Type := mkWorld {
  print_printer : list Printer.t;
  res_users_printer_id : gmap nat nat;
  spawned : list Spawn
}.

(** What a call reads from its surroundings: the requesting user, the host
    ([os.name], the search path), how a child process answers given the
    processes started before it (exit status and merged output), and the
    report registry with its renderer. *)
Record Env : Type := mkEnv {
  uid : nat;
  os_name : string;
  find_in_path : string -> option string;
  popen : list Spawn -> Spawn -> Z * bytes;
  _get_report_from_name : string -> option Report.t;
  ref : string -> option Report.t;
  render : Report.t -> list Z -> option ReportData -> bytes
}.

Definition with_printers (rows : list Printer.t) (w : World) : World :=
  {| print_printer := rows;
     res_users_printer_id := res_users_printer_id w;
     spawned := spawned w |}.

Definition with_user_printer (u p : nat) (w : World) : World :=
  {| print_printer := print_printer w;
     res_users_printer_id := <[u := p]> (res_users_printer_id w);
     spawned := spawned w |}.

Definition with_spawned (l : list Spawn) (w : World) : World :=
  {| print_printer := print_printer w;
     res_users_printer_id := res_users_printer_id w;
     spawned := l |}.

(** ** The monad of method bodies *)

Definition M (A : Type) : Type := World -> outcome A * World.

Definition ret {A} (a : A) : M A := fun w => (Returned a, w).

Definition raise {A} (e : exn) : M A := fun w => (Raised e, w).

Definition bind {A B} (c : M A) (k : A -> M B) : M B :=
  fun w =>
    match c w with
    | (Returned a, w') => k a w'
    | (Raised e, w') => (Raised e, w')
    end.

Notation "x <- c ;; k" := (bind c (fun x => k))
  (at level 100, c at next level, right associativity).
Notation "c ;;; k" := (bind c (fun _ => k))
  (at level 100, right associativity).

(** [for x in l: body]. *)
Fixpoint for_each {A} (l : list A) (body : A -> M unit) : M unit :=
  match l with
  | [] => ret tt
  | x :: rest => body x ;;; for_each rest body
  end.

(** ** ORM primitives used by the model *)

(** The row a record id denotes, if the record exists. *)
Definition browse (w : World) (i : nat) : option Printer.t :=
  List.find (fun p => Nat.eqb (Printer.id p) i) (print_printer w).

(** Reading [printer.queue]. *)
Definition read_queue (i : nat) : M (option string) :=
  fun w =>
    match browse w i with
    | Some p => (Returned (Printer.queue p), w)
    | None => (Raised MissingError, w)
    end.

(** [self.search(domain)]: the matching records, in table order. *)
Definition search (domain : Printer.t -> bool) (w : World) : recordset :=
  map Printer.id (List.filter domain (print_printer w)).

(** [self.env.user.printer_id]: a recordset of at most one printer. *)
Definition user_printer_id (env : Env) (w : World) : recordset :=
  match res_users_printer_id w !! uid env with
  | Some p => [p]
  | None => []
  end.

(** [a or b] on recordsets: [a] unless it is empty. *)
Definition or_else (a b : recordset) : recordset :=
  match a with
  | [] => b
  | _ :: _ => a
  end.

(** [self.ensure_one()]. *)
Definition ensure_one (self : recordset) : M nat :=
  match self with
  | [i] => ret i
  | _ => raise (ValueError ("Expected singleton: print.printer"
                            +:+ str_int_tuple (map Z.of_nat self)))
  end.

Definition mem (i : nat) (ids : recordset) : bool :=
  existsb (Nat.eqb i) ids.

(** The [single_default] constraint,
    [exclude (is_default with =) where (is_default)]: a row version written
    with the flag set is refused when another row has the flag set. *)
Definition excluded (ids : recordset) (rows : list Printer.t) : bool :=
  existsb
    (fun p =>
       mem (Printer.id p) ids && Printer.is_default p &&
       existsb (fun q => negb (Nat.eqb (Printer.id q) (Printer.id p))
                         && Printer.is_default q) rows)%bool
    rows.

(** The rows after [UPDATE print_printer SET is_default = v WHERE id IN ids]. *)
Definition update_rows (ids : recordset) (v : bool) (rows : list Printer.t)
  : list Printer.t :=
  map (fun p => if mem (Printer.id p) ids
                then Printer.set_is_default v p else p) rows.

(** [records.write({'is_default': v})]: nothing for an empty recordset,
    otherwise one UPDATE of the listed rows.  The statement fails on the
    exclusion constraint; a listed record that no longer exists is reported
    after the update. *)
Definition write_is_default (ids : recordset) (v : bool) : M unit :=
  fun w =>
    match ids with
    | [] => (Returned tt, w)
    | _ :: _ =>
        let rows := update_rows ids v (print_printer w) in
        if excluded ids rows
        then (Raised (IntegrityError "single_default"), w)
        else if forallb (fun i => mem i (map Printer.id (print_printer w))) ids
        then (Returned tt, with_printers rows w)
        else (Raised MissingError, w)
    end.

(** ** The module *)

(** [_find_lpr_exec]: [find_in_path] raises [IOError] when the search path
    has no such executable. *)
Definition _find_lpr_exec (env : Env) : M string :=
  match find_in_path env "lpr" with
  | Some lpr_exec => ret lpr_exec
  | None => raise (UserError "Cannot find lpr executable")
  end.

(** [Printer._printers] *)
Definition _printers (env : Env) (self : recordset) : M recordset :=
  fun w =>
    let printers :=
      or_else self
        (or_else (user_printer_id env w)
                 (search (fun p => Bool.eqb (Printer.is_default p) true) w)) in
    match printers with
    | [] => (Raised (UserError "No default printer specified"), w)
    | _ :: _ => (Returned printers, w)
    end.

(** The command line [_spool_lpr] builds for one printer. *)
Definition lpr_args (lpr_exec : string) (queue title : option string)
    (copies : Z) : list string :=
  let args := [lpr_exec] in
  let args := if truthy queue
              then (args ++ ["-P"; default EmptyString queue])%list else args in
  let args := match title with
              | Some t => (args ++ ["-T"; t])%list
              | None => args
              end in
  let args := if (1 <? copies)%Z
              then (args ++ ["-#"; str_int copies])%list else args in
  args.

(** [subprocess.Popen(args, stdin=PIPE, stdout=PIPE, stderr=STDOUT)] followed
    by [communicate(document)]: the process is started, fed the document and
    awaited; the result is its exit status and merged output. *)
Definition communicate (env : Env) (args : list string) (document : bytes)
  : M (Z * bytes) :=
  fun w =>
    let cmd := {| argv := args; stdin := document |} in
    (Returned (popen env (spawned w) cmd),
     with_spawned (spawned w ++ [cmd])%list w).

(** The body of the loop of [_spool_lpr] for one printer (the log line is
    left out: it changes nothing the model observes). *)
Definition spool_lpr_one (env : Env) (lpr_exec : string) (document : bytes)
    (title : option string) (copies : Z) (printer : nat) : M unit :=
  queue <- read_queue printer ;;
  let args := lpr_args lpr_exec queue title copies in
  lpr <- communicate env args document ;;
  let returncode := fst lpr in
  let output := snd lpr in
  if negb (returncode =? 0)%Z
  then raise (UserError ("lpr failed (error code: " +:+ str_int returncode
                         +:+ "). Message: " +:+ bytes_repr output))
  else ret tt.

(** [Printer._spool_lpr] *)
Definition _spool_lpr (env : Env) (self : recordset) (document : bytes)
    (title : option string) (copies : Z) : M unit :=
  lpr_exec <- _find_lpr_exec env ;;
  printers <- _printers env self ;;
  for_each printers (spool_lpr_one env lpr_exec document title copies).

(** [Printer.spool] *)
Definition spool (env : Env) (self : recordset) (document : bytes)
    (title : option string) (copies : Z) : M bool :=
  (if String.eqb (os_name env) "posix"
   then _spool_lpr env self document title copies
   else raise (UserError ("Cannot print on OS: " +:+ os_name env))) ;;;
  ret true.

(** The [report_name] argument of [spool_report]: a report record or the
    name of one. *)
Inductive report_arg : Type :=
| ReportRecord (report : Report.t)
| ReportName (name : string).

(** The first part of [spool_report]: the report the argument denotes.  A
    name is looked up among the report actions, then as an external id. *)
Definition get_report (env : Env) (report_name : report_arg) : M Report.t :=
  match report_name with
  | ReportRecord report => ret report
  | ReportName name =>
      match _get_report_from_name env name with
      | Some report => ret report
      | None =>
          match ref env name with
          | Some report => ret report
          | None => raise (UserError ("Undefined report " +:+ name))
          end
      end
  end.

(** [Printer.spool_report] *)
Definition spool_report (env : Env) (self : recordset) (docids : list Z)
    (report_name : report_arg) (data : option ReportData)
    (title : option string) (copies : Z) : M bool :=
  report <- get_report env report_name ;;
  let document := render env report docids data in
  let title :=
    match title with
    | None => Report.name report +:+ " " +:+ str_int_list docids
    | Some t => t
    end in
  spool env self document (Some title) copies ;;;
  ret true.

(** [Printer.spool_test_page] *)
Definition spool_test_page (env : Env) (self : recordset) : M bool :=
  printers <- _printers env self ;;
  for_each printers
    (fun printer =>
       spool_report env [printer] [Z.of_nat printer]
         (ReportName "print.report_test_page") None (Some "Test page") 1 ;;;
       ret tt) ;;;
  ret true.

(** [Printer.set_user_default] *)
Definition set_user_default (env : Env) (self : recordset) : M bool :=
  printer <- ensure_one self ;;
  (fun w => (Returned tt, with_user_printer (uid env) printer w)) ;;;
  ret true.

(** [Printer.set_system_default] *)
Definition set_system_default (self : recordset) : M bool :=
  printer <- ensure_one self ;;
  current <- (fun w => (Returned (search (fun p => Bool.eqb (Printer.is_default p) true) w), w)) ;;
  write_is_default current false ;;;
  write_is_default [printer] true ;;;
  ret true.

(** ** Reading a command line *)

(** After the executable, the flags and their values alternate. *)
Fixpoint lpr_options (args : list string) : list (string * string) :=
  match args with
  | flag :: value :: rest => (flag, value) :: lpr_options rest
  | _ => []
  end.

(** The value the command line gives to a flag, if it carries the flag. *)
Definition lpr_option (flag : string) (args : list string) : option string :=
  snd <$> List.find (fun fv => String.eqb (fst fv) flag) (lpr_options (tail args)).

(** The process [_spool_lpr] starts for a printer. *)
Definition command_for (lpr_exec : string) (document : bytes)
    (title : option string) (copies : Z) (w : World) (printer : nat) : Spawn :=
  {| argv := lpr_args lpr_exec (browse w printer ≫= Printer.queue) title copies;
     stdin := document |}.

(** Every one of the commands, started in this order after [history], exits
    with status zero. *)
Fixpoint all_succeed (env : Env) (history cmds : list Spawn) : Prop :=
  match cmds with
  | [] => True
  | cmd :: rest =>
      fst (popen env history cmd) = 0%Z /\
      all_succeed env (history ++ [cmd])%list rest
  end.

(** ** Registry invariants *)

Definition unique_ids (w : World) : Prop :=
  List.NoDup (map Printer.id (print_printer w)).

Definition system_defaults (w : World) : recordset :=
  search (fun p => Bool.eqb (Printer.is_default p) true) w.

Definition at_most_one_default (w : World) : Prop :=
  length (system_defaults w) <= 1.

(** Any two rows flagged as default are the same record. *)
Definition defaults_agree (rows : list Printer.t) : Prop :=
  forall p q, In p rows -> In q rows ->
              Printer.is_default p = true -> Printer.is_default q = true ->
              Printer.id p = Printer.id q.

(** ** The statements of [set_system_default]

    A call in progress, between the statements it sends to the database:
    [ensure_one] and the search, the update that clears the flag, the update
    that sets it.  Each statement runs on the registry as it is when the
    statement is sent. *)
Inductive call : Type :=
| Calling (self : recordset)
| Clearing (printer : nat) (current : recordset)
| Setting (printer : nat)
| Done (result : outcome bool).

Definition call_step (c : call) (w : World) : call * World :=
  match c with
  | Calling self =>
      match ensure_one self w with
      | (Returned printer, w') => (Clearing printer (system_defaults w'), w')
      | (Raised e, w') => (Done (Raised e), w')
      end
  | Clearing printer current =>
      match write_is_default current false w with
      | (Returned _, w') => (Setting printer, w')
      | (Raised e, w') => (Done (Raised e), w')
      end
  | Setting printer =>
      match write_is_default [printer] true w with
      | (Returned _, w') => (Done (Returned true), w')
      | (Raised e, w') => (Done (Raised e), w')
      end
  | Done result => (Done result, w)
  end.

(** A call of [set_system_default] running alone: its three statements, one
    after the other. *)
Definition run_alone (self : recordset) (w : World) : call * World :=
  let s1 := call_step (Calling self) w in
  let s2 := call_step (fst s1) (snd s1) in
  call_step (fst s2) (snd s2).

(** ** Sample installation

    Three printers, the second one the system default, on a host that is
    described by its platform name, the path of lpr if it has one, and the
    way its print command answers. *)

Definition front_desk : Printer.t :=
  {| Printer.id := 1; Printer.name := "Front desk"; Printer.barcode := None;
     Printer.queue := Some "officeA"; Printer.is_default := false |}.

Definition warehouse : Printer.t :=
  {| Printer.id := 2; Printer.name := "Warehouse";
     Printer.barcode := Some "PRN0002";
     Printer.queue := Some "officeB"; Printer.is_default := true |}.

Definition local_printer : Printer.t :=
  {| Printer.id := 3; Printer.name := "Local"; Printer.barcode := None;
     Printer.queue := None; Printer.is_default := false |}.

Definition office : World :=
  {| print_printer := [front_desk; warehouse; local_printer];
     res_users_printer_id := ∅;
     spawned := [] |}.

(** The same office after user 7 chose the front desk printer. *)
Definition office_with_personal : World := with_user_printer 7 1 office.

(** An installation without any printer. *)
Definition bare : World :=
  {| print_printer := []; res_users_printer_id := ∅; spawned := [] |}.

Definition test_page : Report.t :=
  {| Report.id := 1; Report.name := "Test page report" |}.

Definition pdf : bytes := list_byte_of_string "%PDF-1.4".

Definition host (platform : string) (lpr : option string)
    (answer : list Spawn -> Spawn -> Z * bytes) : Env :=
  {| uid := 7;
     os_name := platform;
     find_in_path := fun exe => if String.eqb exe "lpr" then lpr else None;
     popen := answer;
     _get_report_from_name :=
       fun name => if String.eqb name "print.report_test_page"
                   then Some test_page else None;
     ref := fun _ => None;
     render := fun _ _ _ => pdf |}.

Definition usr_bin_lpr : option string := Some "/usr/bin/lpr".

(** Every print command succeeds silently. *)
Definition accepts : list Spawn -> Spawn -> Z * bytes :=
  fun _ _ => (0%Z, []).

(** Every print command fails with status 1 and the given diagnostic. *)
Definition rejects (diagnostic : string) : list Spawn -> Spawn -> Z * bytes :=
  fun _ _ => (1%Z, list_byte_of_string diagnostic).

(** The first print command succeeds, every later one fails. *)
Definition rejects_after_first (diagnostic : string)
  : list Spawn -> Spawn -> Z * bytes :=
  fun history _ =>
    match history with
    | [] => (0%Z, [])
    | _ :: _ => (1%Z, list_byte_of_string diagnostic)
    end.

(** A line feed, as it ends the diagnostics of lpr. *)
Definition LF : string := String "010"%char EmptyString.

(** ** Further notions used by the properties *)

(** Printable ASCII: what a one-line message may hold. *)
Definition printable (c : ascii) : bool :=
  let n := N_of_ascii c in ((32 <=? n) && (n <? 127))%N.

Definition printable_string (s : string) : bool :=
  forallb printable (list_ascii_of_string s).

(** The process [spool_test_page] starts for a printer: the test page
    rendered for that printer's id, under the fixed title, a single copy. *)
Definition test_page_command (env : Env) (lpr_exec : string)
    (report : Report.t) (w : World) (printer : nat) : Spawn :=
  command_for lpr_exec (render env report [Z.of_nat printer] None)
    (Some "Test page") 1 w printer.

(** What [spool] asks of every process it starts. *)
Definition as_requested (env : Env) (document : bytes)
    (title : option string) (copies : Z) (cmd : Spawn) : Prop :=
  stdin cmd = document /\
  hd_error (argv cmd) = find_in_path env "lpr" /\
  lpr_option "-T" (argv cmd) = title /\
  lpr_option "-#" (argv cmd)
  = (if (1 <? copies)%Z then Some (str_int copies) else None).

(** A host of another user of the same installation. *)
Definition host_of (user : nat) (env : Env) : Env :=
  {| uid := user;
     os_name := os_name env;
     find_in_path := find_in_path env;
     popen := popen env;
     _get_report_from_name := _get_report_from_name env;
     ref := ref env;
     render := render env |}.

(** * Properties *)

(** ** The monad *)

Lemma bind_returned {A B} (c : M A) (k : A -> M B) w a w' :
  c w = (Returned a, w') -> bind c k w = k a w'.
Proof. intros H. unfold bind. now rewrite H. Qed.

Lemma bind_raised {A B} (c : M A) (k : A -> M B) w e w' :
  c w = (Raised e, w') -> bind c k w = (Raised e, w').
Proof. intros H. unfold bind. now rewrite H. Qed.

(** ** Printer resolution *)

Lemma search_spec domain w i :
  In i (search domain w) <->
  exists p, In p (print_printer w) /\ Printer.id p = i /\ domain p = true.
Proof.
  unfold search. rewrite in_map_iff. split.
  - intros (p & Hid & Hin). apply filter_In in Hin as [Hin Hdom]. eauto.
  - intros (p & Hin & Hid & Hdom). exists p. split; [assumption|].
    apply filter_In. auto.
Qed.

Lemma system_defaults_spec w i :
  In i (system_defaults w) <->
  exists p, In p (print_printer w) /\ Printer.id p = i /\
            Printer.is_default p = true.
Proof.
  unfold system_defaults. rewrite search_spec.
  split; intros (p & Hin & Hid & Hd); exists p; repeat split; auto;
    destruct (Printer.is_default p); auto.
Qed.

(** C1: [_printers] returns the explicit recordset when it is not empty;
    otherwise the single personal default printer of the requesting user when
    there is one, whatever the system default; otherwise the printers flagged
    [is_default]; and it raises "No default printer specified"
    ([NoPrinterConfigured]) when all three are empty, so it never returns an
    empty recordset. *)
Theorem C1_printers_resolution (env : Env) (self : recordset) (w : World) :
  (self <> [] -> _printers env self w = (Returned self, w)) /\
  (forall p, self = [] -> res_users_printer_id w !! uid env = Some p ->
             _printers env self w = (Returned [p], w)) /\
  (self = [] -> res_users_printer_id w !! uid env = None ->
   system_defaults w <> [] ->
   _printers env self w = (Returned (system_defaults w), w)) /\
  (self = [] -> res_users_printer_id w !! uid env = None ->
   system_defaults w = [] ->
   _printers env self w = (Raised NoPrinterConfigured, w)) /\
  (forall i, In i (system_defaults w) <->
             exists p, In p (print_printer w) /\ Printer.id p = i /\
                       Printer.is_default p = true) /\
  (forall printers w', _printers env self w = (Returned printers, w') ->
                       printers <> [] /\ w' = w).
Proof.
  unfold _printers, user_printer_id, system_defaults, NoPrinterConfigured.
  repeat split.
  - destruct self; [congruence | reflexivity].
  - intros p -> ->. reflexivity.
  - intros -> -> Hne. simpl.
    destruct (search _ w); [congruence | reflexivity].
  - intros -> -> ->. reflexivity.
  - apply system_defaults_spec.
  - apply system_defaults_spec.
  - destruct (or_else _ _); congruence.
  - destruct (or_else _ _); congruence.
Qed.

Lemma C1_printers_resolution_witness :
  _printers (host "posix" usr_bin_lpr accepts) [3; 1] office_with_personal
  = (Returned [3; 1], office_with_personal) /\
  _printers (host "posix" usr_bin_lpr accepts) [] office_with_personal
  = (Returned [1], office_with_personal) /\
  _printers (host "posix" usr_bin_lpr accepts) [] office
  = (Returned [2], office) /\
  _printers (host "posix" usr_bin_lpr accepts) [] bare
  = (Raised NoPrinterConfigured, bare).
Proof.
  split; [| split; [| split]].
  - apply (C1_printers_resolution (host "posix" usr_bin_lpr accepts) [3; 1]
             office_with_personal). discriminate.
  - apply (C1_printers_resolution (host "posix" usr_bin_lpr accepts) []
             office_with_personal); reflexivity.
  - apply (C1_printers_resolution (host "posix" usr_bin_lpr accepts) []
             office); [reflexivity | reflexivity | discriminate].
  - apply (C1_printers_resolution (host "posix" usr_bin_lpr accepts) []
             bare); reflexivity.
Defined.

(** ** Platform and executable checks *)

Lemma substring_of_middle (pre s post : string) :
  substring_of s (pre +:+ s +:+ post).
Proof. exists pre, post. reflexivity. Qed.

Lemma append_cons (c : ascii) (s t : string) :
  String c s +:+ t = String c (s +:+ t).
Proof. reflexivity. Qed.

Lemma append_empty_r (s : string) : s +:+ EmptyString = s.
Proof.
  induction s as [|c s IH]; [reflexivity |].
  now rewrite append_cons, IH.
Qed.

Lemma substring_of_suffix (pre s : string) : substring_of s (pre +:+ s).
Proof. exists pre, EmptyString. now rewrite append_empty_r. Qed.

Lemma spool_posix env self document title copies w :
  os_name env = "posix" ->
  spool env self document title copies w =
  match _spool_lpr env self document title copies w with
  | (Returned _, w') => (Returned true, w')
  | (Raised e, w') => (Raised e, w')
  end.
Proof.
  intros Hos. unfold spool, bind. rewrite Hos. simpl.
  destruct (_spool_lpr _ _ _ _ _ w) as [[e|[]] w']; reflexivity.
Qed.

(** C6: on a host whose [os.name] is not "posix", [spool] raises
    "Cannot print on OS: <name>" ([UnsupportedPlatform], the message ending
    in the detected platform name) for every recordset and every state of the
    registry, and leaves the state as it was: nothing is resolved and no
    process is started.  On a posix host it runs [_spool_lpr], returns [True]
    when that returns, and raises what that raises. *)
Theorem C6_spool_platform (env : Env) (self : recordset) (document : bytes)
    (title : option string) (copies : Z) (w : World) :
  (os_name env <> "posix" ->
   spool env self document title copies w
   = (Raised (UnsupportedPlatform (os_name env)), w) /\
   exists msg, UnsupportedPlatform (os_name env) = UserError msg /\
               substring_of (os_name env) msg) /\
  (os_name env = "posix" ->
   (forall w', _spool_lpr env self document title copies w = (Returned tt, w') ->
               spool env self document title copies w = (Returned true, w')) /\
   (forall e w', _spool_lpr env self document title copies w = (Raised e, w') ->
                 spool env self document title copies w = (Raised e, w'))).
Proof.
  split.
  - intros Hos. split.
    + unfold spool, bind, raise, UnsupportedPlatform.
      destruct (String.eqb_spec (os_name env) "posix") as [Heq|_];
        [contradiction | reflexivity].
    + eexists. split; [reflexivity | apply substring_of_suffix].
  - intros Hos. split.
    + intros w' H. rewrite spool_posix by assumption. now rewrite H.
    + intros e w' H. rewrite spool_posix by assumption. now rewrite H.
Qed.

Lemma C6_spool_platform_witness :
  spool (host "nt" usr_bin_lpr accepts) [1] pdf None 1 office
  = (Raised (UserError "Cannot print on OS: nt"), office) /\
  spool (host "posix" usr_bin_lpr accepts) [1] pdf None 1 office
  = (Returned true,
     with_spawned [{| argv := ["/usr/bin/lpr"; "-P"; "officeA"];
                      stdin := pdf |}] office).
Proof.
  split.
  - refine (proj1 (proj1 (C6_spool_platform (host "nt" usr_bin_lpr accepts)
                            [1] pdf None 1 office) _)).
    simpl. discriminate.
  - refine (proj1 (proj2 (C6_spool_platform (host "posix" usr_bin_lpr accepts)
                            [1] pdf None 1 office) _) _ _); reflexivity.
Defined.

(** C10: on a posix host without an lpr executable on the search path,
    [spool] raises "Cannot find lpr executable" for every recordset and every
    state of the registry, and changes nothing: the executable is looked up
    before the printers are resolved, so this error is also the one raised
    when no printer is configured. *)
Theorem C10_lpr_located_before_resolution (env : Env) (self : recordset)
    (document : bytes) (title : option string) (copies : Z) (w : World) :
  os_name env = "posix" ->
  find_in_path env "lpr" = None ->
  spool env self document title copies w
  = (Raised SpoolExecutableNotFound, w) /\
  _spool_lpr env self document title copies w
  = (Raised (UserError "Cannot find lpr executable"), w).
Proof.
  intros Hos Hlpr.
  assert (H : _spool_lpr env self document title copies w
              = (Raised (UserError "Cannot find lpr executable"), w)).
  { unfold _spool_lpr, _find_lpr_exec, bind. now rewrite Hlpr. }
  split; [| exact H].
  rewrite spool_posix by assumption. now rewrite H.
Qed.

Lemma C10_lpr_located_before_resolution_witness :
  _printers (host "posix" None accepts) [] bare
  = (Raised NoPrinterConfigured, bare) /\
  spool (host "posix" None accepts) [] pdf None 1 bare
  = (Raised (UserError "Cannot find lpr executable"), bare).
Proof.
  split; [reflexivity |].
  apply (C10_lpr_located_before_resolution (host "posix" None accepts) [] pdf
           None 1 bare); reflexivity.
Defined.

(** ** The spooling loop *)

Lemma with_spawned_same (w : World) : with_spawned (spawned w) w = w.
Proof. now destruct w. Qed.

Section Spooling.
Variables (env : Env) (lpr_exec : string) (document : bytes).
Variables (title : option string) (copies : Z).

Let cmd := command_for lpr_exec document title copies.
Let body := spool_lpr_one env lpr_exec document title copies.
Let known (w : World) (i : nat) := is_Some (browse w i).

(** One printer: its queue is read, the command is started, and the exit
    status decides. *)
Lemma spool_lpr_one_run (w : World) (printer : nat) :
  known w printer ->
  body printer w =
  (let r := popen env (spawned w) (cmd w printer) in
   if (fst r =? 0)%Z then Returned tt
   else Raised (SpoolFailure (fst r) (snd r)),
   with_spawned (spawned w ++ [cmd w printer])%list w).
Proof.
  intros [p Hp].
  unfold body, cmd, spool_lpr_one, bind, read_queue, communicate,
    command_for, SpoolFailure.
  rewrite Hp. simpl.
  destruct (fst (popen env _ _) =? 0)%Z; reflexivity.
Qed.

Lemma spool_lpr_one_missing (w : World) (printer : nat) :
  browse w printer = None -> body printer w = (Raised MissingError, w).
Proof.
  intros Hp. unfold body, spool_lpr_one, bind, read_queue. now rewrite Hp.
Qed.

Lemma for_each_all_ok (printers : list nat) :
  forall w,
    Forall (known w) printers ->
    all_succeed env (spawned w) (map (cmd w) printers) ->
    for_each printers body w =
    (Returned tt, with_spawned (spawned w ++ map (cmd w) printers)%list w).
Proof.
  induction printers as [|p rest IH]; intros w Hknown Hok.
  - simpl. rewrite List.app_nil_r, with_spawned_same. reflexivity.
  - inversion Hknown as [|? ? Hp Hrest]; subst.
    destruct Hok as [Hzero Hok].
    change (for_each (p :: rest) body w)
      with (bind (body p) (fun _ => for_each rest body) w).
    unfold bind. rewrite (spool_lpr_one_run w p Hp).
    cbv zeta. rewrite Hzero. simpl Z.eqb. cbv iota.
    rewrite (IH (with_spawned (spawned w ++ [cmd w p])%list w) Hrest Hok).
    simpl spawned. unfold with_spawned at 1. simpl.
    rewrite <- List.app_assoc. reflexivity.
Qed.

Lemma for_each_first_failure (pre : list nat) :
  forall w p post rc out,
    Forall (known w) (pre ++ [p]) ->
    all_succeed env (spawned w) (map (cmd w) pre) ->
    popen env (spawned w ++ map (cmd w) pre)%list (cmd w p) = (rc, out) ->
    rc <> 0%Z ->
    for_each (pre ++ p :: post) body w =
    (Raised (SpoolFailure rc out),
     with_spawned (spawned w ++ map (cmd w) (pre ++ [p]))%list w).
Proof.
  induction pre as [|q pre IH]; intros w p post rc out Hknown Hok Hrun Hrc.
  - inversion Hknown as [|? ? Hp _]; subst.
    simpl in Hrun. rewrite List.app_nil_r in Hrun.
    change (for_each ([] ++ p :: post) body w)
      with (bind (body p) (fun _ => for_each post body) w).
    unfold bind. rewrite (spool_lpr_one_run w p Hp).
    cbv zeta. rewrite Hrun. simpl fst. simpl snd.
    destruct (Z.eqb_spec rc 0) as [?|_]; [contradiction | reflexivity].
  - inversion Hknown as [|? ? Hq Hrest]; subst.
    destruct Hok as [Hzero Hok].
    change (for_each ((q :: pre) ++ p :: post) body w)
      with (bind (body q) (fun _ => for_each (pre ++ p :: post) body) w).
    unfold bind. rewrite (spool_lpr_one_run w q Hq).
    cbv zeta. rewrite Hzero. simpl Z.eqb. cbv iota.
    rewrite (IH (with_spawned (spawned w ++ [cmd w q])%list w) p post rc out
               Hrest Hok).
    + simpl spawned. unfold with_spawned at 1. simpl.
      rewrite <- List.app_assoc. reflexivity.
    + simpl spawned. rewrite <- List.app_assoc. exact Hrun.
    + exact Hrc.
Qed.

(** The processes started by the loop are those of a prefix of the
    recordset, in its order, whatever the outcome. *)
Lemma for_each_spawns_prefix (printers : list nat) :
  forall w r w',
    for_each printers body w = (r, w') ->
    exists n, w' = with_spawned
                     (spawned w ++ map (cmd w) (firstn n printers))%list w.
Proof.
  induction printers as [|p rest IH]; intros w r w' Hrun.
  - exists 0. simpl in Hrun. inversion Hrun; subst.
    simpl. now rewrite List.app_nil_r, with_spawned_same.
  - change (for_each (p :: rest) body w)
      with (bind (body p) (fun _ => for_each rest body) w) in Hrun.
    unfold bind in Hrun.
    destruct (browse w p) as [row|] eqn:Hp.
    + rewrite (spool_lpr_one_run w p) in Hrun by (now exists row).
      cbv zeta in Hrun.
      destruct (fst (popen env (spawned w) (cmd w p)) =? 0)%Z.
      * apply IH in Hrun as [n ->]. exists (S n).
        simpl spawned. unfold with_spawned at 1. simpl.
        rewrite <- List.app_assoc. reflexivity.
      * inversion Hrun; subst. exists 1. reflexivity.
    + rewrite (spool_lpr_one_missing w p Hp) in Hrun.
      inversion Hrun; subst. exists 0.
      simpl. now rewrite List.app_nil_r, with_spawned_same.
Qed.
End Spooling.

Lemma spool_resolved env self document title copies w lpr_exec printers :
  os_name env = "posix" ->
  find_in_path env "lpr" = Some lpr_exec ->
  _printers env self w = (Returned printers, w) ->
  spool env self document title copies w =
  match for_each printers
          (spool_lpr_one env lpr_exec document title copies) w with
  | (Returned _, w') => (Returned true, w')
  | (Raised e, w') => (Raised e, w')
  end.
Proof.
  intros Hos Hlpr Hres. rewrite spool_posix by assumption.
  unfold _spool_lpr, _find_lpr_exec, bind. rewrite Hlpr.
  unfold ret at 1. rewrite Hres. reflexivity.
Qed.

(** C5: when the recordset resolves to [pre ++ p :: post], the commands of
    [pre] all exit with status zero and the command of [p] exits with a
    status other than zero, [spool] raises the error of [p]; the processes it
    started are exactly those of [pre] and of [p], one after the other in
    resolution order, none for [post]; and nothing else of the state has
    changed. *)
Theorem C5_first_failure_halts (env : Env) (self : recordset)
    (document : bytes) (title : option string) (copies : Z) (w : World)
    (lpr_exec : string) (pre : list nat) (p : nat) (post : list nat)
    (rc : Z) (out : bytes) :
  let cmd := command_for lpr_exec document title copies w in
  os_name env = "posix" ->
  find_in_path env "lpr" = Some lpr_exec ->
  _printers env self w = (Returned (pre ++ p :: post), w) ->
  Forall (fun i => is_Some (browse w i)) (pre ++ [p]) ->
  all_succeed env (spawned w) (map cmd pre) ->
  popen env (spawned w ++ map cmd pre)%list (cmd p) = (rc, out) ->
  rc <> 0%Z ->
  spool env self document title copies w =
  (Raised (SpoolFailure rc out),
   {| print_printer := print_printer w;
      res_users_printer_id := res_users_printer_id w;
      spawned := (spawned w ++ map cmd pre ++ [cmd p])%list |}).
Proof.
  intros cmd Hos Hlpr Hres Hknown Hok Hrun Hrc.
  rewrite (spool_resolved _ _ _ _ _ _ lpr_exec (pre ++ p :: post))
    by assumption.
  rewrite (for_each_first_failure env lpr_exec document title copies
             pre w p post rc out) by assumption.
  unfold with_spawned. rewrite map_app. reflexivity.
Qed.

Lemma C5_first_failure_halts_witness :
  spool (host "posix" usr_bin_lpr (rejects_after_first "out of paper"))
        [1; 2; 3] pdf None 1 office
  = (Raised (UserError "lpr failed (error code: 1). Message: b'out of paper'"),
     {| print_printer := print_printer office;
        res_users_printer_id := res_users_printer_id office;
        spawned := [ {| argv := ["/usr/bin/lpr"; "-P"; "officeA"];
                        stdin := pdf |};
                     {| argv := ["/usr/bin/lpr"; "-P"; "officeB"];
                        stdin := pdf |} ] |}).
Proof.
  apply (C5_first_failure_halts
           (host "posix" usr_bin_lpr (rejects_after_first "out of paper"))
           [1; 2; 3] pdf None 1 office "/usr/bin/lpr" [1] 2 [3] 1
           (list_byte_of_string "out of paper")).
  - reflexivity.
  - reflexivity.
  - reflexivity.
  - repeat constructor; eexists; reflexivity.
  - simpl. split; [reflexivity | exact I].
  - reflexivity.
  - discriminate.
Defined.

(** ** Text of the failure message *)

Lemma prefix_append (s t : string) : String.prefix s (s +:+ t) = true.
Proof.
  induction s as [|a s IH]; [now destruct t |].
  rewrite append_cons. simpl.
  destruct (Ascii.ascii_dec a a); [exact IH | congruence].
Qed.

Lemma contains_unfold (s t : string) :
  contains s t =
  (String.prefix s t ||
   match t with
   | EmptyString => false
   | String _ t' => contains s t'
   end)%bool.
Proof. destruct t; reflexivity. Qed.

Lemma contains_sound (s t : string) : substring_of s t -> contains s t = true.
Proof.
  intros (pre & post & ->).
  induction pre as [|c pre IH].
  - change (EmptyString +:+ s +:+ post) with (s +:+ post).
    now rewrite contains_unfold, prefix_append.
  - rewrite append_cons, contains_unfold, IH. apply orb_true_r.
Qed.

Lemma concat_empty_cons (x : string) (xs : list string) :
  String.concat EmptyString (x :: xs) = x +:+ String.concat EmptyString xs.
Proof.
  destruct xs; [symmetry; apply append_empty_r | reflexivity].
Qed.

Lemma repr_byte_plain (b : byte) :
  plain_byte b = true ->
  repr_byte squote b = String (ascii_of_byte b) EmptyString.
Proof. destruct b; intros H; try discriminate H; reflexivity. Qed.

Lemma has_squote_plain (bs : bytes) :
  forallb plain_byte bs = true -> has_byte squote bs = false.
Proof.
  induction bs as [|b bs IH]; [reflexivity |].
  simpl. intros H. apply andb_true_iff in H as [Hb Hbs].
  rewrite (IH Hbs), orb_false_r.
  destruct b; try discriminate Hb; reflexivity.
Qed.

(** A captured output of printable ASCII without quotes and backslashes is
    rendered as it is, between [b'] and [']. *)
Lemma bytes_repr_plain (bs : bytes) :
  forallb plain_byte bs = true ->
  bytes_repr bs = "b'" +:+ decode bs +:+ "'".
Proof.
  intros H. unfold bytes_repr. rewrite (has_squote_plain bs H). simpl andb.
  cbv iota.
  assert (Hc : String.concat EmptyString (map (repr_byte squote) bs)
               = decode bs).
  { clear -H. induction bs as [|b bs IH]; [reflexivity |].
    simpl in H. apply andb_true_iff in H as [Hb Hbs].
    change (map (repr_byte squote) (b :: bs))
      with (repr_byte squote b :: map (repr_byte squote) bs).
    rewrite concat_empty_cons, (IH Hbs), (repr_byte_plain b Hb).
    reflexivity. }
  rewrite Hc. reflexivity.
Qed.

(** The failure as the code reports it: when the command of a resolved
    printer exits with a status other than zero, all commands before it
    having exited with zero, [spool] raises a [UserError] whose text is
    "lpr failed (error code: <status in decimal>). Message: <output>", where
    the output is the captured bytes as Python renders a bytes object: in
    [b'...'] form, quotes, backslashes and non-printable bytes escaped.  For
    an output of printable ASCII without quotes and backslashes that is the
    output itself between [b'] and ['].  When every command exits with zero,
    [spool] returns [True]; what the commands wrote is not kept. *)
Theorem spool_failure_message (env : Env) (self : recordset)
    (document : bytes) (title : option string) (copies : Z) (w : World)
    (lpr_exec : string) (printers : list nat) :
  let cmd := command_for lpr_exec document title copies w in
  os_name env = "posix" ->
  find_in_path env "lpr" = Some lpr_exec ->
  _printers env self w = (Returned printers, w) ->
  (forall pre p post rc out,
      printers = pre ++ p :: post ->
      Forall (fun i => is_Some (browse w i)) (pre ++ [p]) ->
      all_succeed env (spawned w) (map cmd pre) ->
      popen env (spawned w ++ map cmd pre) (cmd p) = (rc, out) ->
      rc <> 0%Z ->
      fst (spool env self document title copies w)
      = Raised (UserError ("lpr failed (error code: " +:+ str_int rc
                           +:+ "). Message: " +:+ bytes_repr out)) /\
      (forallb plain_byte out = true ->
       fst (spool env self document title copies w)
       = Raised (UserError ("lpr failed (error code: " +:+ str_int rc
                            +:+ "). Message: b'" +:+ decode out +:+ "'")))) /\
  (Forall (fun i => is_Some (browse w i)) printers ->
   all_succeed env (spawned w) (map cmd printers) ->
   spool env self document title copies w
   = (Returned true, with_spawned (spawned w ++ map cmd printers) w)).
Proof.
  intros cmd Hos Hlpr Hres. split.
  - intros pre p post rc out -> Hknown Hok Hrun Hrc.
    assert (H : fst (spool env self document title copies w)
                = Raised (SpoolFailure rc out)).
    { rewrite (spool_resolved _ _ _ _ _ _ lpr_exec (pre ++ p :: post))
        by assumption.
      now rewrite (for_each_first_failure env lpr_exec document title copies
                     pre w p post rc out) by assumption. }
    split; [exact H |].
    intros Hplain. rewrite H. unfold SpoolFailure.
    now rewrite (bytes_repr_plain out Hplain).
  - intros Hknown Hok.
    rewrite (spool_resolved _ _ _ _ _ _ lpr_exec printers) by assumption.
    now rewrite (for_each_all_ok env lpr_exec document title copies
                   printers w) by assumption.
Qed.

Lemma spool_failure_message_example :
  fst (spool (host "posix" usr_bin_lpr (rejects "out of paper"))
             [1] pdf None 1 office)
  = Raised (UserError "lpr failed (error code: 1). Message: b'out of paper'") /\
  spool (host "posix" usr_bin_lpr accepts) [1] pdf None 1 office
  = (Returned true,
     with_spawned [{| argv := ["/usr/bin/lpr"; "-P"; "officeA"];
                      stdin := pdf |}] office).
Proof.
  split.
  - refine (proj2 (proj1 (spool_failure_message
                            (host "posix" usr_bin_lpr (rejects "out of paper"))
                            [1] pdf None 1 office "/usr/bin/lpr" [1]
                            _ _ _)
                         [] 1 [] 1%Z (list_byte_of_string "out of paper")
                         _ _ _ _ _) _);
      first [ reflexivity | discriminate | exact I
            | repeat constructor; eexists; reflexivity ].
  - refine (proj2 (spool_failure_message
                     (host "posix" usr_bin_lpr accepts)
                     [1] pdf None 1 office "/usr/bin/lpr" [1] _ _ _) _ _);
      first [ reflexivity | simpl; split; [reflexivity | exact I]
            | repeat constructor; eexists; reflexivity ].
Defined.

(** C3: the code at the failing input.  lpr exits with status 1 after
    writing "out of paper" and a line feed.  [spool] fails and the error
    names the exit status, but the captured output is put into the message
    with the [%s] conversion of a bytes object: it comes out in [b'...']
    form with the line feed written as a backslash and the letter n, so the
    output as captured does not occur in the error. *)
Lemma C3_output_not_verbatim :
  exists msg w',
    spool (host "posix" usr_bin_lpr (rejects ("out of paper" +:+ LF)))
          [1] pdf None 1 office
    = (Raised (UserError msg), w') /\
    msg = "lpr failed (error code: 1). Message: b'out of paper\n'" /\
    ~ substring_of (decode (list_byte_of_string ("out of paper" +:+ LF))) msg.
Proof.
  eexists. eexists. split; [vm_compute; reflexivity |].
  split; [reflexivity |].
  intros H. apply contains_sound in H. vm_compute in H. discriminate H.
Qed.

(** ** Copy counts below one *)

Lemma lpr_args_single lpr_exec queue title copies :
  (copies <= 1)%Z ->
  lpr_args lpr_exec queue title copies = lpr_args lpr_exec queue title 1.
Proof.
  intros H. unfold lpr_args.
  assert (Hlt : (1 <? copies)%Z = false) by (apply Z.ltb_ge; exact H).
  rewrite Hlt. reflexivity.
Qed.

Lemma for_each_ext {A} (f g : A -> M unit) (l : list A) :
  (forall x w, f x w = g x w) -> forall w, for_each l f w = for_each l g w.
Proof.
  intros Hfg. induction l as [|x l IH]; intros w; [reflexivity |].
  simpl. unfold bind. rewrite Hfg.
  destruct (g x w) as [[e|[]] w']; [reflexivity | apply IH].
Qed.

Lemma spool_single env self document title copies w :
  (copies <= 1)%Z ->
  spool env self document title copies w = spool env self document title 1 w.
Proof.
  intros H. unfold spool, bind.
  destruct (String.eqb (os_name env) "posix"); [| reflexivity].
  unfold _spool_lpr, bind.
  destruct (_find_lpr_exec env w) as [[e|lpr_exec] w1]; [reflexivity |].
  destruct (_printers env self w1) as [[e|printers] w2]; [reflexivity |].
  rewrite (for_each_ext
             (spool_lpr_one env lpr_exec document title copies)
             (spool_lpr_one env lpr_exec document title 1)); [reflexivity |].
  intros printer w3. unfold spool_lpr_one, bind.
  destruct (read_queue printer w3) as [[e|queue] w4]; [reflexivity |].
  now rewrite (lpr_args_single lpr_exec queue title copies H).
Qed.

(** C4 (as the code has it): [spool] does not check [copies].  A request
    with [copies <= 0] is carried out exactly as the request for a single
    copy: same outcome, same processes started, none of them given the
    copy-count flag. *)
Theorem C4_nonpositive_copies_as_single (env : Env) (self : recordset)
    (document : bytes) (title : option string) (copies : Z) (w : World) :
  (copies <= 0)%Z ->
  spool env self document title copies w = spool env self document title 1 w /\
  forall lpr_exec queue,
    lpr_option "-#" (lpr_args lpr_exec queue title copies) = None.
Proof.
  intros H. split; [apply spool_single; lia |].
  intros lpr_exec queue. rewrite (lpr_args_single _ _ _ copies) by lia.
  unfold lpr_args, lpr_option.
  destruct (truthy queue), title; reflexivity.
Qed.

Lemma C4_nonpositive_copies_as_single_witness :
  spool (host "posix" usr_bin_lpr accepts) [1] pdf None (-2) office
  = spool (host "posix" usr_bin_lpr accepts) [1] pdf None 1 office.
Proof.
  apply (C4_nonpositive_copies_as_single (host "posix" usr_bin_lpr accepts)
           [1] pdf None (-2) office).
  lia.
Defined.

(** C4, as stated, fails: a request for zero copies raises nothing and
    starts lpr. *)
Lemma C4_zero_copies_spooled :
  spool (host "posix" usr_bin_lpr accepts) [1] pdf None 0 office
  = (Returned true,
     with_spawned [{| argv := ["/usr/bin/lpr"; "-P"; "officeA"];
                      stdin := pdf |}] office).
Proof. reflexivity. Qed.

(** ** The lpr command line *)

Lemma lpr_args_shape lpr_exec queue title copies :
  lpr_args lpr_exec queue title copies =
  [lpr_exec]
    ++ (if truthy queue then ["-P"; default EmptyString queue] else [])
    ++ match title with Some t => ["-T"; t] | None => [] end
    ++ (if (1 <? copies)%Z then ["-#"; str_int copies] else []).
Proof.
  unfold lpr_args.
  destruct (truthy queue), title, (1 <? copies)%Z; reflexivity.
Qed.

Lemma lpr_option_queue lpr_exec queue title copies :
  lpr_option "-P" (lpr_args lpr_exec queue title copies)
  = if truthy queue then queue else None.
Proof.
  rewrite lpr_args_shape. unfold lpr_option.
  destruct queue as [q|]; simpl truthy;
    [destruct (String.eqb q EmptyString) |];
    destruct title, (1 <? copies)%Z; reflexivity.
Qed.

Lemma lpr_option_title lpr_exec queue title copies :
  lpr_option "-T" (lpr_args lpr_exec queue title copies) = title.
Proof.
  rewrite lpr_args_shape. unfold lpr_option.
  destruct (truthy queue), title, (1 <? copies)%Z; reflexivity.
Qed.

Lemma lpr_option_copies lpr_exec queue title copies :
  lpr_option "-#" (lpr_args lpr_exec queue title copies)
  = if (1 <? copies)%Z then Some (str_int copies) else None.
Proof.
  rewrite lpr_args_shape. unfold lpr_option.
  destruct (truthy queue), title, (1 <? copies)%Z; reflexivity.
Qed.



(** ** Report titles *)

Lemma append_assoc_string (a b c : string) :
  (a +:+ b) +:+ c = a +:+ b +:+ c.
Proof.
  induction a as [|x a IH]; [reflexivity |].
  now rewrite !append_cons, IH.
Qed.

Lemma substring_of_refl (s : string) : substring_of s s.
Proof. exists EmptyString, EmptyString. now rewrite append_empty_r. Qed.

Lemma substring_of_trans (s t u : string) :
  substring_of s t -> substring_of t u -> substring_of s u.
Proof.
  intros (a & b & ->) (c & d & ->).
  exists (c +:+ a), (b +:+ d).
  now rewrite !append_assoc_string.
Qed.

Lemma substring_of_prefix (s post : string) : substring_of s (s +:+ post).
Proof. exists EmptyString, post. reflexivity. Qed.

Lemma substring_of_concat (sep x : string) (l : list string) :
  In x l -> substring_of x (String.concat sep l).
Proof.
  induction l as [|y l IH]; [intros [] |].
  intros [-> | Hin].
  - destruct l; [apply substring_of_refl | apply substring_of_prefix].
  - destruct l as [|z l]; [destruct Hin |].
    change (String.concat sep (y :: z :: l))
      with (y +:+ sep +:+ String.concat sep (z :: l)).
    eapply substring_of_trans; [apply (IH Hin) |].
    rewrite <- append_assoc_string. apply substring_of_suffix.
Qed.

Lemma get_report_pure env report_name w :
  exists r, get_report env report_name w = (r, w).
Proof.
  unfold get_report.
  destruct report_name as [report|name]; [eexists; reflexivity |].
  destruct (_get_report_from_name env name); [eexists; reflexivity |].
  destruct (ref env name); eexists; reflexivity.
Qed.

Lemma spool_report_found env self docids report_name data title copies w report :
  get_report env report_name w = (Returned report, w) ->
  spool_report env self docids report_name data title copies w =
  match spool env self (render env report docids data)
          (Some match title with
                | None => Report.name report +:+ " " +:+ str_int_list docids
                | Some t => t
                end) copies w with
  | (Returned _, w') => (Returned true, w')
  | (Raised e, w') => (Raised e, w')
  end.
Proof.
  intros Hrep. unfold spool_report, bind. rewrite Hrep.
  destruct (spool _ _ _ _ _ w) as [[e|b] w']; reflexivity.
Qed.

(** C8: when the report is found, [spool_report] called without a title
    spools the rendered document under the title "<report name> <docids>":
    the display name of the report, a space, and the identifier list as
    Python prints it.  The name, the list and the decimal form of every
    identifier occur in that title.  Called with a title, it spools under
    that title as it is. *)
Theorem C8_spool_report_title (env : Env) (self : recordset)
    (docids : list Z) (report_name : report_arg) (data : option ReportData)
    (copies : Z) (w : World) (report : Report.t) :
  get_report env report_name w = (Returned report, w) ->
  let document := render env report docids data in
  let synthesized := Report.name report +:+ " " +:+ str_int_list docids in
  spool_report env self docids report_name data None copies w
  = match spool env self document (Some synthesized) copies w with
    | (Returned _, w') => (Returned true, w')
    | (Raised e, w') => (Raised e, w')
    end /\
  substring_of (Report.name report) synthesized /\
  substring_of (str_int_list docids) synthesized /\
  (forall d, In d docids -> substring_of (str_int d) synthesized) /\
  (forall t,
      spool_report env self docids report_name data (Some t) copies w
      = match spool env self document (Some t) copies w with
        | (Returned _, w') => (Returned true, w')
        | (Raised e, w') => (Raised e, w')
        end).
Proof.
  intros Hrep document synthesized.
  assert (Hids : substring_of (str_int_list docids) synthesized).
  { unfold synthesized. rewrite <- append_assoc_string.
    apply substring_of_suffix. }
  repeat match goal with |- _ /\ _ => split end.
  - now rewrite (spool_report_found _ _ _ _ _ _ _ _ report).
  - apply substring_of_prefix.
  - exact Hids.
  - intros d Hd. eapply substring_of_trans; [| exact Hids].
    unfold str_int_list.
    eapply substring_of_trans; [| apply substring_of_middle].
    apply substring_of_concat, in_map, Hd.
  - intros t. now rewrite (spool_report_found _ _ _ _ _ _ _ _ report).
Qed.

Lemma C8_spool_report_title_witness :
  spool_report (host "posix" usr_bin_lpr accepts) [1] [4; 5]%Z
    (ReportName "print.report_test_page") None None 1 office
  = (Returned true,
     with_spawned
       [{| argv := ["/usr/bin/lpr"; "-P"; "officeA";
                    "-T"; "Test page report [4, 5]"];
           stdin := pdf |}] office).
Proof.
  refine (eq_trans
            (proj1 (C8_spool_report_title (host "posix" usr_bin_lpr accepts)
                      [1] [4; 5]%Z (ReportName "print.report_test_page")
                      None 1 office test_page _)) _);
    reflexivity.
Defined.

(** ** Personal default *)

Lemma ensure_one_singleton (i : nat) (w : World) :
  ensure_one [i] w = (Returned i, w).
Proof. reflexivity. Qed.

Lemma ensure_one_fails (self : recordset) (w : World) :
  length self <> 1 ->
  exists msg, ensure_one self w = (Raised (ValueError msg), w).
Proof.
  intros H. destruct self as [|i [|j rest]];
    [eexists; reflexivity | now contradiction H | eexists; reflexivity].
Qed.

(** C9: [set_user_default] raises (the [ValueError] of [ensure_one]) on a
    recordset that does not hold exactly one printer, and then changes
    nothing.  On a single printer it returns [True]; afterwards the
    [printer_id] of the requesting user is that printer, whatever it was
    before, and the printer table, the [printer_id] of every other user and
    the started processes are as they were. *)
Theorem C9_set_user_default (env : Env) (self : recordset) (w : World) :
  (length self <> 1 ->
   exists msg, set_user_default env self w = (Raised (ValueError msg), w)) /\
  (forall printer,
      self = [printer] ->
      set_user_default env self w
      = (Returned true,
         {| print_printer := print_printer w;
            res_users_printer_id :=
              <[uid env := printer]> (res_users_printer_id w);
            spawned := spawned w |}) /\
      user_printer_id env (snd (set_user_default env self w)) = [printer]) /\
  (forall r w',
      set_user_default env self w = (r, w') ->
      print_printer w' = print_printer w /\
      spawned w' = spawned w /\
      forall u, u <> uid env ->
                res_users_printer_id w' !! u = res_users_printer_id w !! u).
Proof.
  split; [| split].
  - intros H. destruct (ensure_one_fails self w H) as [msg Hmsg].
    exists msg. unfold set_user_default.
    now rewrite (bind_raised _ _ _ _ _ Hmsg).
  - intros printer ->. split; [reflexivity |].
    unfold user_printer_id. simpl. now rewrite lookup_insert_eq.
  - intros r w' H.
    destruct self as [|i [|j rest]]; simpl in H; inversion H; subst;
      (split; [reflexivity | split; [reflexivity |]]);
      intros u Hu; try reflexivity.
    simpl. now rewrite lookup_insert_ne by congruence.
Qed.

Lemma C9_set_user_default_witness :
  (exists msg,
      set_user_default (host "posix" usr_bin_lpr accepts) [1; 2]
        office_with_personal
      = (Raised (ValueError msg), office_with_personal)) /\
  user_printer_id (host "posix" usr_bin_lpr accepts)
    (snd (set_user_default (host "posix" usr_bin_lpr accepts) [3]
            office_with_personal))
  = [3].
Proof.
  split.
  - refine (proj1 (C9_set_user_default (host "posix" usr_bin_lpr accepts)
                     [1; 2] office_with_personal) _).
    simpl. lia.
  - refine (proj2 (proj1 (proj2 (C9_set_user_default
                                   (host "posix" usr_bin_lpr accepts)
                                   [3] office_with_personal)) 3 _)).
    reflexivity.
Defined.

(** ** System default *)

Lemma mem_In (i : nat) (ids : recordset) : mem i ids = true <-> In i ids.
Proof.
  unfold mem. rewrite existsb_exists. split.
  - intros (j & Hin & Heq). apply Nat.eqb_eq in Heq. now subst.
  - intros Hin. exists i. split; [assumption | apply Nat.eqb_refl].
Qed.

Lemma existsb_false_elim {A} (f : A -> bool) (l : list A) (x : A) :
  existsb f l = false -> In x l -> f x = false.
Proof.
  intros Hf Hin. destruct (f x) eqn:Hx; [| reflexivity].
  assert (H : existsb f l = true) by (apply existsb_exists; eauto).
  congruence.
Qed.

Lemma existsb_false_intro {A} (f : A -> bool) (l : list A) :
  (forall x, In x l -> f x = false) -> existsb f l = false.
Proof.
  intros H. destruct (existsb f l) eqn:Hex; [| reflexivity].
  apply existsb_exists in Hex as (x & Hin & Hx).
  rewrite (H x Hin) in Hx. discriminate.
Qed.

Lemma with_printers_same (w : World) : with_printers (print_printer w) w = w.
Proof. now destruct w. Qed.

Lemma set_is_default_same (p : Printer.t) (v : bool) :
  Printer.is_default p = v -> Printer.set_is_default v p = p.
Proof. intros <-. now destruct p. Qed.

Lemma update_rows_ids ids v rows :
  map Printer.id (update_rows ids v rows) = map Printer.id rows.
Proof.
  unfold update_rows. rewrite map_map. apply map_ext.
  intros p. now destruct (mem (Printer.id p) ids).
Qed.

Lemma browse_known (w : World) (i : nat) :
  is_Some (browse w i) <-> In i (map Printer.id (print_printer w)).
Proof.
  unfold browse. split.
  - intros [p Hp]. apply find_some in Hp as [Hin Heq].
    apply Nat.eqb_eq in Heq. subst. now apply in_map.
  - intros Hin. apply in_map_iff in Hin as (p & Hid & Hin).
    destruct (List.find _ _) eqn:Hf; [eauto |].
    apply (find_none _ _ Hf) in Hin. rewrite Hid, Nat.eqb_refl in Hin.
    discriminate.
Qed.

(** What the exclusion constraint lets through. *)
Lemma excluded_false ids rows p q :
  excluded ids rows = false ->
  In p rows -> In q rows ->
  mem (Printer.id p) ids = true ->
  Printer.is_default p = true -> Printer.is_default q = true ->
  Printer.id q = Printer.id p.
Proof.
  intros Hex Hp Hq Hmem Hdp Hdq. unfold excluded in Hex.
  apply (existsb_false_elim _ _ p) in Hex; [| assumption].
  cbv beta in Hex. rewrite Hmem, Hdp in Hex. simpl in Hex.
  apply (existsb_false_elim _ _ q) in Hex; [| assumption].
  cbv beta in Hex. rewrite Hdq, andb_true_r in Hex.
  apply negb_false_iff, Nat.eqb_eq in Hex. exact Hex.
Qed.

Lemma excluded_no_default ids rows :
  (forall p, In p rows -> mem (Printer.id p) ids = true ->
             Printer.is_default p = false) ->
  excluded ids rows = false.
Proof.
  intros H. unfold excluded. apply existsb_false_intro. intros p Hp.
  destruct (mem (Printer.id p) ids) eqn:Hmem; [| reflexivity].
  now rewrite (H p Hp Hmem).
Qed.

Lemma write_is_default_cases ids v w r w' :
  write_is_default ids v w = (r, w') ->
  w' = w \/
  (r = Returned tt /\
   w' = with_printers (update_rows ids v (print_printer w)) w /\
   excluded ids (update_rows ids v (print_printer w)) = false).
Proof.
  unfold write_is_default. destruct ids as [|i ids].
  - intros H. inversion H. now left.
  - destruct (excluded _ _) eqn:Hex.
    + intros H. inversion H. now left.
    + destruct (forallb _ _); intros H; inversion H; [right | left]; auto.
Qed.

Lemma NoDup_map_filter {A B} (f : A -> B) (g : A -> bool) (l : list A) :
  List.NoDup (map f l) -> List.NoDup (map f (List.filter g l)).
Proof.
  induction l as [|a l IH]; intros Hnd; [constructor |].
  simpl in Hnd. inversion Hnd as [|? ? Hnotin Hnd']; subst.
  simpl. destruct (g a); [| now apply IH].
  simpl. constructor; [| now apply IH].
  intros Hin. apply Hnotin.
  apply in_map_iff in Hin as (x & Hfx & Hx).
  apply filter_In in Hx as [Hx _]. rewrite <- Hfx. now apply in_map.
Qed.

(** With unique ids, counting the flagged rows and comparing them pairwise
    say the same. *)
Lemma at_most_one_default_agree (w : World) :
  unique_ids w ->
  (at_most_one_default w <-> defaults_agree (print_printer w)).
Proof.
  intros Hu. unfold at_most_one_default, defaults_agree. split.
  - intros Hlen p q Hp Hq Hdp Hdq.
    assert (Hip : In (Printer.id p) (system_defaults w))
      by (apply system_defaults_spec; eauto).
    assert (Hiq : In (Printer.id q) (system_defaults w))
      by (apply system_defaults_spec; eauto).
    destruct (system_defaults w) as [|a [|b l]]; simpl in *;
      [contradiction | | lia].
    destruct Hip as [<-|[]], Hiq as [<-|[]]. reflexivity.
  - intros Hagree.
    assert (Hnd : List.NoDup (system_defaults w))
      by (apply NoDup_map_filter, Hu).
    assert (Heq : forall i j, In i (system_defaults w) ->
                              In j (system_defaults w) -> i = j).
    { intros i j Hi Hj.
      apply system_defaults_spec in Hi as (p & Hp & <- & Hdp).
      apply system_defaults_spec in Hj as (q & Hq & <- & Hdq).
      now apply Hagree. }
    destruct (system_defaults w) as [|a [|b l]]; simpl; [lia | lia |].
    exfalso. inversion Hnd as [|? ? Hnotin _]; subst.
    apply Hnotin. rewrite (Heq a b); simpl; auto.
Qed.

(** One UPDATE keeps the ids, and keeps the flagged rows at one at most:
    this is the work of the exclusion constraint. *)
Lemma write_is_default_invariant ids v w r w' :
  unique_ids w -> at_most_one_default w ->
  write_is_default ids v w = (r, w') ->
  unique_ids w' /\ at_most_one_default w'.
Proof.
  intros Hu Hone Hrun.
  apply write_is_default_cases in Hrun as [-> | (_ & -> & Hex)]; [auto |].
  assert (Hu' : unique_ids
                  (with_printers (update_rows ids v (print_printer w)) w)).
  { unfold unique_ids. simpl. rewrite update_rows_ids. exact Hu. }
  split; [exact Hu' |].
  apply at_most_one_default_agree; [exact Hu' |].
  apply (at_most_one_default_agree w Hu) in Hone.
  simpl. intros p' q' Hp' Hq' Hdp Hdq.
  destruct (mem (Printer.id p') ids) eqn:Hmp.
  { symmetry.
    apply (excluded_false ids (update_rows ids v (print_printer w)) p' q');
      assumption. }
  destruct (mem (Printer.id q') ids) eqn:Hmq.
  { apply (excluded_false ids (update_rows ids v (print_printer w)) q' p');
      assumption. }
  unfold update_rows in Hp', Hq'.
  apply in_map_iff in Hp' as (p & Hp & Hpin).
  apply in_map_iff in Hq' as (q & Hq & Hqin).
  assert (Hp0 : p' = p).
  { destruct (mem (Printer.id p) ids) eqn:Hm; [| now subst].
    subst p'. simpl in Hmp. congruence. }
  assert (Hq0 : q' = q).
  { destruct (mem (Printer.id q) ids) eqn:Hm; [| now subst].
    subst q'. simpl in Hmq. congruence. }
  clear Hp Hq. subst p' q'. now apply Hone.
Qed.

(** The first UPDATE of [set_system_default] clears every flag. *)
Lemma clear_current_defaults (w : World) :
  write_is_default (system_defaults w) false w
  = (Returned tt,
     with_printers (map (Printer.set_is_default false) (print_printer w)) w).
Proof.
  assert (Hnot : forall p, In p (print_printer w) ->
                           mem (Printer.id p) (system_defaults w) = false ->
                           Printer.is_default p = false).
  { intros p Hp Hmem. destruct (Printer.is_default p) eqn:Hd; [| reflexivity].
    assert (Hin : In (Printer.id p) (system_defaults w))
      by (apply system_defaults_spec; eauto).
    apply mem_In in Hin. congruence. }
  assert (Hrows : update_rows (system_defaults w) false (print_printer w)
                  = map (Printer.set_is_default false) (print_printer w)).
  { unfold update_rows. apply map_ext_in. intros p Hp.
    destruct (mem (Printer.id p) (system_defaults w)) eqn:Hmem;
      [reflexivity |].
    symmetry. apply set_is_default_same. now apply Hnot. }
  unfold write_is_default. rewrite Hrows.
  destruct (system_defaults w) as [|i ids] eqn:Hcur.
  - f_equal. rewrite <- Hrows. unfold update_rows. simpl.
    rewrite map_id. symmetry. apply with_printers_same.
  - rewrite excluded_no_default.
    + assert (Hall : forallb
                       (fun j => mem j (map Printer.id (print_printer w)))
                       (i :: ids) = true).
      { apply forallb_forall. intros j Hj. apply mem_In.
        rewrite <- Hcur in Hj.
        apply system_defaults_spec in Hj as (p & Hp & <- & _).
        now apply in_map. }
      now rewrite Hall.
    + intros p Hp _. apply in_map_iff in Hp as (p0 & <- & _). reflexivity.
Qed.

(** The second UPDATE flags the chosen printer, and passes the constraint
    because no flag is left. *)
Lemma set_after_clear (w : World) (printer : nat) :
  In printer (map Printer.id (print_printer w)) ->
  write_is_default [printer] true
    (with_printers (map (Printer.set_is_default false) (print_printer w)) w)
  = (Returned tt,
     with_printers
       (map (fun p => Printer.set_is_default
                        (Nat.eqb (Printer.id p) printer) p)
            (print_printer w)) w).
Proof.
  intros Hin.
  assert (Hrows : update_rows [printer] true
                    (map (Printer.set_is_default false) (print_printer w))
                  = map (fun p => Printer.set_is_default
                                    (Nat.eqb (Printer.id p) printer) p)
                        (print_printer w)).
  { unfold update_rows. rewrite map_map. apply map_ext. intros p.
    unfold mem. simpl. rewrite orb_false_r.
    now destruct (Nat.eqb (Printer.id p) printer). }
  unfold write_is_default. simpl print_printer. rewrite Hrows.
  assert (Hex : excluded [printer]
                  (map (fun p => Printer.set_is_default
                                   (Nat.eqb (Printer.id p) printer) p)
                       (print_printer w)) = false).
  { unfold excluded. apply existsb_false_intro. intros p' Hp'.
    apply in_map_iff in Hp' as (p & <- & _). simpl.
    unfold mem. simpl. rewrite orb_false_r.
    destruct (Nat.eqb_spec (Printer.id p) printer) as [Heq|_];
      [| reflexivity].
    simpl. apply existsb_false_intro. intros q' Hq'.
    apply in_map_iff in Hq' as (q & <- & _). simpl. rewrite Heq.
    now destruct (Nat.eqb (Printer.id q) printer). }
  rewrite Hex.
  assert (Hall : forallb
                   (fun j => mem j (map Printer.id
                                      (map (Printer.set_is_default false)
                                           (print_printer w))))
                   [printer] = true).
  { simpl. rewrite andb_true_r. apply mem_In.
    rewrite map_map. exact Hin. }
  rewrite Hall. reflexivity.
Qed.

Lemma set_system_default_known (w : World) (printer : nat) :
  In printer (map Printer.id (print_printer w)) ->
  set_system_default [printer] w
  = (Returned true,
     with_printers
       (map (fun p => Printer.set_is_default
                        (Nat.eqb (Printer.id p) printer) p)
            (print_printer w)) w).
Proof.
  intros Hin. unfold set_system_default, bind.
  rewrite ensure_one_singleton.
  fold (system_defaults w). rewrite clear_current_defaults.
  now rewrite (set_after_clear w printer Hin).
Qed.

Lemma only_flagged_row (rows : list Printer.t) (printer : nat) :
  List.NoDup (map Printer.id rows) ->
  In printer (map Printer.id rows) ->
  map Printer.id
    (List.filter (fun p => Bool.eqb (Printer.is_default p) true)
       (map (fun p => Printer.set_is_default
                        (Nat.eqb (Printer.id p) printer) p) rows))
  = [printer].
Proof.
  assert (Hnone : forall l, ~ In printer (map Printer.id l) ->
            map Printer.id
              (List.filter (fun p => Bool.eqb (Printer.is_default p) true)
                 (map (fun p => Printer.set_is_default
                                  (Nat.eqb (Printer.id p) printer) p) l))
            = []).
  { induction l as [|a l IH]; intros Hnotin; [reflexivity |].
    simpl in *. destruct (Nat.eqb_spec (Printer.id a) printer) as [Heq|Hne].
    - exfalso. apply Hnotin. now left.
    - simpl. apply IH. intros H. apply Hnotin. now right. }
  induction rows as [|a rows IH]; intros Hnd Hin; [destruct Hin |].
  simpl in Hnd. inversion Hnd as [|? ? Hnotin Hnd']; subst.
  simpl. destruct (Nat.eqb_spec (Printer.id a) printer) as [Heq|Hne].
  - simpl. rewrite Heq in *. now rewrite (Hnone rows Hnotin).
  - simpl. apply IH; [assumption |].
    destruct Hin as [Heq|Hin]; [contradiction | assumption].
Qed.

(** A call running alone ends as the method does. *)
Lemma run_alone_refines (self : recordset) (w : World) :
  run_alone self w
  = (Done (fst (set_system_default self w)),
     snd (set_system_default self w)).
Proof.
  unfold run_alone, set_system_default, bind.
  destruct self as [|i [|j rest]]; try reflexivity.
  cbn -[write_is_default]. fold (system_defaults w).
  destruct (write_is_default (system_defaults w) false w) as [[e|[]] w1];
    [reflexivity |].
  cbn -[write_is_default].
  destruct (write_is_default [i] true w1) as [[e|[]] w2]; reflexivity.
Qed.

Lemma call_step_invariant (c c' : call) (w w' : World) :
  unique_ids w -> at_most_one_default w ->
  call_step c w = (c', w') ->
  unique_ids w' /\ at_most_one_default w'.
Proof.
  intros Hu Hone.
  destruct c as [self|printer current|printer|result];
    cbn -[write_is_default].
  - destruct self as [|i [|j rest]]; intros H; inversion H; subst; auto.
  - destruct (write_is_default current false w) as [[e|[]] w1] eqn:Hw;
      intros H; inversion H; subst;
      eapply write_is_default_invariant; eauto.
  - destruct (write_is_default [printer] true w) as [[e|[]] w1] eqn:Hw;
      intros H; inversion H; subst;
      eapply write_is_default_invariant; eauto.
  - intros H. inversion H; subst. auto.
Qed.

Lemma office_unique_ids : unique_ids office.
Proof.
  unfold unique_ids. simpl.
  repeat (constructor; [simpl; intuition discriminate |]). constructor.
Qed.

Lemma set_system_default_invariant (self : recordset) (w : World)
    (r : outcome bool) (w' : World) :
  unique_ids w -> at_most_one_default w ->
  set_system_default self w = (r, w') ->
  unique_ids w' /\ at_most_one_default w'.
Proof.
  intros Hu Hone Hrun.
  pose proof (run_alone_refines self w) as Href. rewrite Hrun in Href.
  unfold run_alone in Href. cbv zeta in Href.
  destruct (call_step (Calling self) w) as [c1 w1] eqn:H1.
  destruct (call_step_invariant _ _ _ _ Hu Hone H1) as [Hu1 Hone1].
  cbn [fst snd] in Href.
  destruct (call_step c1 w1) as [c2 w2] eqn:H2.
  destruct (call_step_invariant _ _ _ _ Hu1 Hone1 H2) as [Hu2 Hone2].
  cbn [fst snd] in Href.
  destruct (call_step_invariant _ _ _ _ Hu2 Hone2 Href). auto.
Qed.

(** X16: in a registry with unique ids, [set_system_default] raises (the
    [ValueError] of [ensure_one]) unless it is called on exactly one printer,
    and then changes nothing; called on one existing printer it returns
    [True] and leaves every row as it was except for the flag, which is set
    on that printer and cleared on every other row, so that the printer is
    the one system default; and whatever its recordset and its outcome, a
    call that starts with at most one flagged printer ends with at most one
    flagged printer. *)
Theorem X16_set_system_default_alone (w : World) :
  unique_ids w ->
  (forall self,
      length self <> 1 ->
      exists msg, set_system_default self w = (Raised (ValueError msg), w)) /\
  (forall printer,
      is_Some (browse w printer) ->
      let w' := with_printers
                  (map (fun p => Printer.set_is_default
                                   (Nat.eqb (Printer.id p) printer) p)
                       (print_printer w)) w in
      set_system_default [printer] w = (Returned true, w') /\
      system_defaults w' = [printer] /\
      (forall p, In p (print_printer w') ->
                 (Printer.is_default p = true <-> Printer.id p = printer))) /\
  (at_most_one_default w ->
   forall self r w',
     set_system_default self w = (r, w') ->
     unique_ids w' /\ at_most_one_default w').
Proof.
  intros Hu. split; [| split].
  - intros self Hlen. destruct (ensure_one_fails self w Hlen) as [msg Hmsg].
    exists msg. unfold set_system_default.
    now rewrite (bind_raised _ _ _ _ _ Hmsg).
  - intros printer Hknown w'. apply browse_known in Hknown.
    split; [now apply set_system_default_known |].
    split; [now apply only_flagged_row |].
    intros p Hp. simpl in Hp. apply in_map_iff in Hp as (p0 & <- & _).
    simpl. apply Nat.eqb_eq.
  - intros Hone self r w' Hrun.
    now apply (set_system_default_invariant self w r w').
Qed.

Lemma X16_set_system_default_alone_witness :
  set_system_default [1] office
  = (Returned true,
     with_printers
       [Printer.set_is_default true front_desk;
        Printer.set_is_default false warehouse;
        local_printer] office) /\
  system_defaults (snd (set_system_default [1] office)) = [1].
Proof.
  destruct (proj1 (proj2 (X16_set_system_default_alone office
                            office_unique_ids))
              1 (ex_intro _ front_desk eq_refl)) as (Hrun & Hdef & _).
  split.
  - rewrite Hrun. reflexivity.
  - rewrite Hrun. exact Hdef.
Defined.

(** ** Reports that do not exist, and the test page *)

Lemma get_report_undefined env name w :
  _get_report_from_name env name = None ->
  ref env name = None ->
  forall self docids data title copies,
    spool_report env self docids (ReportName name) data title copies w
    = (Raised (ReportNotFound name), w).
Proof.
  intros Hname Href self docids data title copies.
  unfold spool_report, get_report, bind. now rewrite Hname, Href.
Qed.

(** The test page goes to the system default printer when neither a printer
    nor a personal default is given, under the fixed title. *)
Example spool_test_page_system_default :
  spool_test_page (host "posix" usr_bin_lpr accepts) [] office
  = (Returned true,
     with_spawned
       [{| argv := ["/usr/bin/lpr"; "-P"; "officeB"; "-T"; "Test page"];
           stdin := pdf |}] office).
Proof. reflexivity. Qed.

(** * Further properties of the module *)

(** ** Reports *)

Lemma get_report_anywhere env report_name w report :
  get_report env report_name w = (Returned report, w) ->
  forall w2, get_report env report_name w2 = (Returned report, w2).
Proof.
  unfold get_report. intros H w2.
  destruct report_name as [r|name].
  - inversion H. reflexivity.
  - destruct (_get_report_from_name env name).
    + inversion H. reflexivity.
    + destruct (ref env name); inversion H. reflexivity.
Qed.

(** X1: [spool_report] called with a name that is neither a report action
    nor an external id raises "Undefined report <name>" and changes nothing,
    whatever the host, the recordset and the registry: the report is looked
    up before the platform, the executable and the printers are. *)
Theorem X1_undefined_report_first (env : Env) (name : string)
    (self : recordset) (docids : list Z) (data : option ReportData)
    (title : option string) (copies : Z) (w : World) :
  _get_report_from_name env name = None ->
  ref env name = None ->
  spool_report env self docids (ReportName name) data title copies w
  = (Raised (UserError ("Undefined report " +:+ name)), w).
Proof.
  intros Hname Href.
  now apply (get_report_undefined env name w Hname Href).
Qed.

Lemma X1_undefined_report_first_witness :
  spool_report (host "nt" None accepts) [] [1%Z] (ReportName "sale.order")
    None None 0 bare
  = (Raised (UserError "Undefined report sale.order"), bare).
Proof.
  apply (X1_undefined_report_first (host "nt" None accepts) "sale.order"
           [] [1%Z] None None 0 bare); reflexivity.
Defined.

(** X2: a report name stands for the record it resolves to: the report
    action of that name when there is one, even if the name is also an
    external id of another record, and the record of that external id
    otherwise.  [spool_report] with the name does what it does with the
    record. *)
Theorem X2_report_name_as_record (env : Env) (name : string)
    (self : recordset) (docids : list Z) (data : option ReportData)
    (title : option string) (copies : Z) (w : World) :
  (forall report,
      _get_report_from_name env name = Some report ->
      spool_report env self docids (ReportName name) data title copies w
      = spool_report env self docids (ReportRecord report) data title copies w)
  /\
  (forall report,
      _get_report_from_name env name = None ->
      ref env name = Some report ->
      spool_report env self docids (ReportName name) data title copies w
      = spool_report env self docids (ReportRecord report) data title copies w).
Proof.
  split.
  - intros report Hname. unfold spool_report, get_report. now rewrite Hname.
  - intros report Hname Href. unfold spool_report, get_report.
    now rewrite Hname, Href.
Qed.

Lemma X2_report_name_as_record_witness :
  spool_report (host "posix" usr_bin_lpr accepts) [1] [1%Z]
    (ReportName "print.report_test_page") None None 1 office
  = spool_report (host "posix" usr_bin_lpr accepts) [1] [1%Z]
      (ReportRecord test_page) None None 1 office.
Proof.
  refine (proj1 (X2_report_name_as_record (host "posix" usr_bin_lpr accepts)
                   "print.report_test_page" [1] [1%Z] None None 1 office)
            test_page _).
  reflexivity.
Defined.

(** ** What [spool] does to the state *)

Lemma printers_pure env self w r w' :
  _printers env self w = (r, w') -> w' = w.
Proof.
  unfold _printers. destruct (or_else _ _); intros H; now inversion H.
Qed.

Lemma spool_outcome env self document title copies w r w' :
  spool env self document title copies w = (r, w') ->
  w' = w \/
  exists lpr_exec printers n,
    os_name env = "posix" /\
    find_in_path env "lpr" = Some lpr_exec /\
    _printers env self w = (Returned printers, w) /\
    w' = with_spawned
           (spawned w ++ map (command_for lpr_exec document title copies w)
                             (firstn n printers)) w.
Proof.
  intros Hrun.
  destruct (String.eqb_spec (os_name env) "posix") as [Hos|Hos].
  - rewrite spool_posix in Hrun by assumption.
    unfold _spool_lpr, _find_lpr_exec, bind in Hrun.
    destruct (find_in_path env "lpr") as [lpr_exec|] eqn:Hlpr.
    + unfold ret at 1 in Hrun.
      destruct (_printers env self w) as [[e|printers] w1] eqn:Hres.
      * apply printers_pure in Hres. inversion Hrun; subst. now left.
      * pose proof (printers_pure _ _ _ _ _ Hres) as ->.
        destruct (for_each printers _ w) as [r2 w2] eqn:Hloop.
        apply for_each_spawns_prefix in Hloop as [n Hn].
        right. exists lpr_exec, printers, n.
        repeat split; try assumption.
        destruct r2 as [e|[]]; inversion Hrun; subst; reflexivity.
    + inversion Hrun. now left.
  - left. unfold spool, bind in Hrun.
    destruct (String.eqb_spec (os_name env) "posix"); [contradiction |].
    now inversion Hrun.
Qed.

Lemma for_each_returned env lpr_exec document title copies printers :
  forall w w',
    for_each printers (spool_lpr_one env lpr_exec document title copies) w
    = (Returned tt, w') ->
    Forall (fun i => is_Some (browse w i)) printers /\
    all_succeed env (spawned w)
      (map (command_for lpr_exec document title copies w) printers) /\
    w' = with_spawned
           (spawned w ++ map (command_for lpr_exec document title copies w)
                             printers) w.
Proof.
  induction printers as [|p rest IH]; intros w w' Hrun.
  - simpl in Hrun. inversion Hrun; subst. repeat split; [constructor |].
    simpl. now rewrite List.app_nil_r, with_spawned_same.
  - change (for_each (p :: rest) ?b w)
      with (bind (b p) (fun _ => for_each rest b) w) in Hrun.
    unfold bind in Hrun.
    destruct (browse w p) as [row|] eqn:Hp.
    + assert (Hknown : is_Some (browse w p)) by (now exists row).
      rewrite (spool_lpr_one_run env lpr_exec document title copies w p Hknown)
        in Hrun.
      cbv zeta in Hrun.
      destruct (Z.eqb_spec
                  (fst (popen env (spawned w)
                          (command_for lpr_exec document title copies w p))) 0)
        as [Hzero|_]; [| discriminate Hrun].
      apply IH in Hrun as (Hrest & Hok & ->).
      split; [constructor; assumption |].
      split; [split; assumption |].
      simpl spawned. unfold with_spawned at 1. simpl.
      rewrite <- List.app_assoc. reflexivity.
    + rewrite (spool_lpr_one_missing env lpr_exec document title copies w p Hp)
        in Hrun.
      discriminate Hrun.
Qed.



(** X4: every process [spool] starts, whatever the outcome, is the lpr
    executable found on the search path, is fed the document on its standard
    input, carries the requested title as its title (none when no title was
    asked for) and the copy count exactly when more than one copy was asked
    for. *)
Theorem X4_spool_processes_as_requested (env : Env) (self : recordset)
    (document : bytes) (title : option string) (copies : Z) (w : World)
    (r : outcome bool) (w' : World) :
  spool env self document title copies w = (r, w') ->
  exists started,
    spawned w' = spawned w ++ started /\
    Forall (as_requested env document title copies) started.
Proof.
  intros Hrun.
  apply spool_outcome in Hrun
    as [-> | (lpr_exec & printers & n & _ & Hlpr & Hres & ->)].
  - exists []. split; [now rewrite List.app_nil_r | constructor].
  - eexists. split; [reflexivity |].
    apply List.Forall_forall. intros cmd Hcmd.
    apply in_map_iff in Hcmd as (i & <- & _).
    unfold as_requested, command_for. simpl.
    rewrite lpr_option_title, lpr_option_copies, Hlpr.
    repeat split. now rewrite lpr_args_shape.
Qed.

Lemma X4_spool_processes_as_requested_witness :
  exists started,
    spawned (snd (spool (host "posix" usr_bin_lpr accepts) [1; 3] pdf
                    (Some "Invoice") 2 office))
    = spawned office ++ started /\
    Forall (as_requested (host "posix" usr_bin_lpr accepts) pdf
              (Some "Invoice") 2) started.
Proof.
  apply (X4_spool_processes_as_requested (host "posix" usr_bin_lpr accepts)
           [1; 3] pdf (Some "Invoice") 2 office
           (fst (spool (host "posix" usr_bin_lpr accepts) [1; 3] pdf
                   (Some "Invoice") 2 office))).
  reflexivity.
Defined.

(** X5: [spool] returns (and then it returns [True]) only if the host is
    posix, lpr was found, and for every printer of the resolved recordset the
    record exists, a process was started and it exited with status zero. *)
Theorem X5_spool_true_means_all_printed (env : Env) (self : recordset)
    (document : bytes) (title : option string) (copies : Z) (w : World)
    (b : bool) (w' : World) :
  spool env self document title copies w = (Returned b, w') ->
  b = true /\
  os_name env = "posix" /\
  exists lpr_exec printers,
    find_in_path env "lpr" = Some lpr_exec /\
    _printers env self w = (Returned printers, w) /\
    Forall (fun i => is_Some (browse w i)) printers /\
    all_succeed env (spawned w)
      (map (command_for lpr_exec document title copies w) printers) /\
    w' = with_spawned
           (spawned w ++ map (command_for lpr_exec document title copies w)
                             printers) w.
Proof.
  intros Hrun.
  destruct (String.eqb_spec (os_name env) "posix") as [Hos|Hos].
  - rewrite spool_posix in Hrun by assumption.
    unfold _spool_lpr, _find_lpr_exec, bind in Hrun.
    destruct (find_in_path env "lpr") as [lpr_exec|] eqn:Hlpr;
      [| discriminate Hrun].
    unfold ret at 1 in Hrun.
    destruct (_printers env self w) as [[e|printers] w1] eqn:Hres;
      [discriminate Hrun |].
    pose proof (printers_pure _ _ _ _ _ Hres) as ->.
    destruct (for_each printers _ w) as [[e|[]] w2] eqn:Hloop;
      [discriminate Hrun |].
    inversion Hrun; subst.
    apply for_each_returned in Hloop as (Hknown & Hok & ->).
    split; [reflexivity |]. split; [assumption |].
    exists lpr_exec, printers. auto.
  - unfold spool, bind in Hrun.
    destruct (String.eqb_spec (os_name env) "posix"); [contradiction |].
    discriminate Hrun.
Qed.

Lemma X5_spool_true_means_all_printed_witness :
  os_name (host "posix" usr_bin_lpr accepts) = "posix" /\
  exists lpr_exec printers,
    find_in_path (host "posix" usr_bin_lpr accepts) "lpr" = Some lpr_exec /\
    _printers (host "posix" usr_bin_lpr accepts) [] office
    = (Returned printers, office) /\
    Forall (fun i => is_Some (browse office i)) printers /\
    all_succeed (host "posix" usr_bin_lpr accepts) (spawned office)
      (map (command_for lpr_exec pdf None 1 office) printers) /\
    with_spawned [{| argv := ["/usr/bin/lpr"; "-P"; "officeB"];
                     stdin := pdf |}] office
    = with_spawned
        (spawned office ++ map (command_for lpr_exec pdf None 1 office)
                               printers) office.
Proof.
  apply (X5_spool_true_means_all_printed (host "posix" usr_bin_lpr accepts)
           [] pdf None 1 office true
           (with_spawned [{| argv := ["/usr/bin/lpr"; "-P"; "officeB"];
                             stdin := pdf |}] office)).
  reflexivity.
Defined.

(** ** The test page *)

Lemma spool_one_ok env lpr_exec document title copies w printer :
  os_name env = "posix" ->
  find_in_path env "lpr" = Some lpr_exec ->
  is_Some (browse w printer) ->
  fst (popen env (spawned w)
         (command_for lpr_exec document title copies w printer)) = 0%Z ->
  spool env [printer] document title copies w
  = (Returned true,
     with_spawned
       (spawned w ++ [command_for lpr_exec document title copies w printer])
       w).
Proof.
  intros Hos Hlpr Hknown Hzero.
  rewrite (spool_resolved env [printer] document title copies w lpr_exec
             [printer] Hos Hlpr eq_refl).
  rewrite (for_each_all_ok env lpr_exec document title copies [printer] w).
  - reflexivity.
  - constructor; [assumption | constructor].
  - simpl. split; [assumption | exact I].
Qed.

Lemma test_page_loop env lpr_exec report printers :
  os_name env = "posix" ->
  find_in_path env "lpr" = Some lpr_exec ->
  (forall w, get_report env (ReportName "print.report_test_page") w
             = (Returned report, w)) ->
  forall w,
    Forall (fun i => is_Some (browse w i)) printers ->
    all_succeed env (spawned w)
      (map (test_page_command env lpr_exec report w) printers) ->
    for_each printers
      (fun printer =>
         spool_report env [printer] [Z.of_nat printer]
           (ReportName "print.report_test_page") None (Some "Test page") 1 ;;;
         ret tt) w
    = (Returned tt,
       with_spawned
         (spawned w ++ map (test_page_command env lpr_exec report w) printers)
         w).
Proof.
  intros Hos Hlpr Hrep.
  induction printers as [|p rest IH]; intros w Hknown Hok.
  - simpl. now rewrite List.app_nil_r, with_spawned_same.
  - inversion Hknown as [|? ? Hp Hrest]; subst.
    destruct Hok as [Hzero Hok].
    change (for_each (p :: rest) ?b w)
      with (bind (b p) (fun _ => for_each rest b) w).
    unfold bind at 1 2.
    rewrite (spool_report_found env [p] [Z.of_nat p] _ None (Some "Test page")
               1 w report (Hrep w)).
    rewrite (spool_one_ok env lpr_exec _ (Some "Test page") 1 w p Hos Hlpr Hp
               Hzero).
    unfold ret at 1.
    fold (test_page_command env lpr_exec report w p).
    rewrite (IH (with_spawned
                   (spawned w ++ [test_page_command env lpr_exec report w p])
                   w) Hrest Hok).
    simpl spawned. unfold with_spawned at 1. simpl.
    rewrite <- List.app_assoc. reflexivity.
Qed.

(** X6: on a posix host with lpr and the test page report, when every
    resolved printer exists and every print command exits with status zero,
    [spool_test_page] returns [True] after starting exactly one process per
    resolved printer, in resolution order: each goes to that printer's own
    queue, is titled "Test page", asks for no copy count and is fed the test
    page rendered for that printer's id. *)
Theorem X6_test_page_per_printer (env : Env) (self : recordset) (w : World)
    (lpr_exec : string) (report : Report.t) (printers : list nat) :
  os_name env = "posix" ->
  find_in_path env "lpr" = Some lpr_exec ->
  get_report env (ReportName "print.report_test_page") w
  = (Returned report, w) ->
  _printers env self w = (Returned printers, w) ->
  Forall (fun i => is_Some (browse w i)) printers ->
  all_succeed env (spawned w)
    (map (test_page_command env lpr_exec report w) printers) ->
  spool_test_page env self w
  = (Returned true,
     with_spawned
       (spawned w ++ map (test_page_command env lpr_exec report w) printers)
       w) /\
  forall i,
    In i printers ->
    let cmd := test_page_command env lpr_exec report w i in
    stdin cmd = render env report [Z.of_nat i] None /\
    lpr_option "-T" (argv cmd) = Some "Test page" /\
    lpr_option "-#" (argv cmd) = None /\
    lpr_option "-P" (argv cmd)
    = (if truthy (browse w i ≫= Printer.queue)
       then browse w i ≫= Printer.queue else None).
Proof.
  intros Hos Hlpr Hrep Hres Hknown Hok. split.
  - unfold spool_test_page, bind at 1 2. rewrite Hres.
    rewrite (test_page_loop env lpr_exec report printers Hos Hlpr
               (get_report_anywhere _ _ _ _ Hrep) w Hknown Hok).
    reflexivity.
  - intros i _ cmd. unfold cmd, test_page_command, command_for. simpl.
    rewrite lpr_option_title, lpr_option_copies, lpr_option_queue.
    repeat split.
Qed.

Lemma X6_test_page_per_printer_witness :
  spool_test_page (host "posix" usr_bin_lpr accepts) [3; 1] office
  = (Returned true,
     with_spawned
       [{| argv := ["/usr/bin/lpr"; "-T"; "Test page"]; stdin := pdf |};
        {| argv := ["/usr/bin/lpr"; "-P"; "officeA"; "-T"; "Test page"];
           stdin := pdf |}] office).
Proof.
  refine (proj1 (X6_test_page_per_printer (host "posix" usr_bin_lpr accepts)
                   [3; 1] office "/usr/bin/lpr" test_page [3; 1]
                   _ _ _ _ _ _));
    first [ reflexivity
          | repeat constructor; eexists; reflexivity
          | simpl; repeat split ].
Defined.

(** X7: [spool_test_page] resolves the printers before anything else: with
    no explicit printer, no personal default and no system default it raises
    "No default printer specified" and changes nothing, also on a host that
    is not posix, has no lpr or lacks the test page report. *)
Theorem X7_test_page_resolves_first (env : Env) (w : World) :
  res_users_printer_id w !! uid env = None ->
  system_defaults w = [] ->
  spool_test_page env [] w = (Raised NoPrinterConfigured, w).
Proof.
  intros Huser Hdef. unfold spool_test_page.
  apply bind_raised. unfold _printers, user_printer_id.
  rewrite Huser. simpl. fold (system_defaults w). now rewrite Hdef.
Qed.

Lemma X7_test_page_resolves_first_witness :
  spool_test_page (host "nt" None accepts) [] bare
  = (Raised (UserError "No default printer specified"), bare) /\
  spool (host "nt" None accepts) [] pdf None 1 bare
  = (Raised (UserError "Cannot print on OS: nt"), bare).
Proof.
  split; [| reflexivity].
  apply (X7_test_page_resolves_first (host "nt" None accepts) bare);
    reflexivity.
Defined.

(** ** Defaults, set and used *)

Lemma spool_same_printers env s1 s2 document title copies w :
  _printers env s1 w = _printers env s2 w ->
  spool env s1 document title copies w = spool env s2 document title copies w.
Proof.
  intros H. unfold spool, _spool_lpr, bind.
  destruct (String.eqb (os_name env) "posix"); [| reflexivity].
  destruct (_find_lpr_exec env w) as [[e|lpr_exec] w1] eqn:Hlpr;
    [reflexivity |].
  assert (w1 = w) as ->.
  { unfold _find_lpr_exec in Hlpr.
    destruct (find_in_path env "lpr"); now inversion Hlpr. }
  now rewrite H.
Qed.

(** X8: of two calls of [set_system_default] on existing printers, one after
    the other, the last one decides: the second call returns [True] and
    leaves the registry exactly as it would have without the first.  In
    particular a repeated call changes nothing more. *)
Theorem X8_last_system_default_wins (w : World) (p q : nat) :
  is_Some (browse w p) ->
  is_Some (browse w q) ->
  set_system_default [q] (snd (set_system_default [p] w))
  = set_system_default [q] w /\
  fst (set_system_default [q] w) = Returned true.
Proof.
  intros Hp Hq. apply browse_known in Hp, Hq.
  rewrite (set_system_default_known w p Hp),
    (set_system_default_known w q Hq).
  split; [| reflexivity]. simpl snd.
  rewrite set_system_default_known
    by (simpl; rewrite map_map; exact Hq).
  simpl. unfold with_printers. simpl. rewrite map_map. reflexivity.
Qed.

Lemma X8_last_system_default_wins_witness :
  set_system_default [3] (snd (set_system_default [1] office))
  = set_system_default [3] office.
Proof.
  apply (X8_last_system_default_wins office 1 3); eexists; reflexivity.
Defined.

(** X9: after [set_user_default] on a printer, the user's requests without
    an explicit printer resolve to exactly that printer, whatever the system
    default is, so that [spool] on the empty recordset is [spool] on that
    printer; the resolution of every other user is as before. *)
Theorem X9_personal_default_used (env : Env) (p : nat) (w : World) :
  let w' := snd (set_user_default env [p] w) in
  _printers env [] w' = (Returned [p], w') /\
  (forall document title copies,
      spool env [] document title copies w'
      = spool env [p] document title copies w') /\
  (forall other self,
      other <> uid env ->
      fst (_printers (host_of other env) self w')
      = fst (_printers (host_of other env) self w)).
Proof.
  intros w'.
  assert (H : _printers env [] w' = (Returned [p], w')).
  { unfold _printers, user_printer_id, w'. simpl.
    now rewrite lookup_insert_eq. }
  split; [exact H |]. split.
  - intros document title copies. apply spool_same_printers.
    now rewrite H.
  - intros other self Hother. unfold _printers, user_printer_id, w'. simpl.
    rewrite lookup_insert_ne by congruence.
    fold (system_defaults w).
    now destruct (or_else self _).
Qed.

(** X10: [set_user_default] overwrites: after two calls by the same user the
    state is the one the second call alone would have left. *)
Theorem X10_personal_default_overwritten (env : Env) (p q : nat) (w : World) :
  set_user_default env [q] (snd (set_user_default env [p] w))
  = set_user_default env [q] w.
Proof.
  unfold set_user_default, bind. simpl.
  unfold with_user_printer. simpl. now rewrite insert_insert_eq.
Qed.

(** X11: after [set_system_default] on an existing printer of a registry
    with unique ids, a user without personal default who names no printer
    gets exactly that printer, and a user with a personal default still gets
    the personal one. *)
Theorem X11_system_default_used (env : Env) (p : nat) (w : World) :
  unique_ids w ->
  is_Some (browse w p) ->
  let w' := snd (set_system_default [p] w) in
  (res_users_printer_id w !! uid env = None ->
   _printers env [] w' = (Returned [p], w')) /\
  (forall d, res_users_printer_id w !! uid env = Some d ->
             _printers env [] w' = (Returned [d], w')).
Proof.
  intros Hu Hp w'. apply browse_known in Hp.
  assert (Hw' : w' = with_printers
                       (map (fun r => Printer.set_is_default
                                        (Nat.eqb (Printer.id r) p) r)
                            (print_printer w)) w).
  { unfold w'. now rewrite (set_system_default_known w p Hp). }
  clearbody w'. subst w'. split.
  - intros Huser. unfold _printers, user_printer_id.
    simpl res_users_printer_id. rewrite Huser. simpl or_else.
    unfold search. simpl print_printer.
    rewrite (only_flagged_row (print_printer w) p Hu Hp). reflexivity.
  - intros d Huser. unfold _printers, user_printer_id.
    simpl res_users_printer_id. now rewrite Huser.
Qed.

Lemma X11_system_default_used_witness :
  _printers (host "posix" usr_bin_lpr accepts) []
    (snd (set_system_default [3] office))
  = (Returned [3], snd (set_system_default [3] office)) /\
  _printers (host "posix" usr_bin_lpr accepts) []
    (snd (set_system_default [3] office_with_personal))
  = (Returned [1], snd (set_system_default [3] office_with_personal)).
Proof.
  split.
  - refine (proj1 (X11_system_default_used (host "posix" usr_bin_lpr accepts)
                     3 office office_unique_ids _) _).
    + eexists; reflexivity.
    + reflexivity.
  - refine (proj2 (X11_system_default_used (host "posix" usr_bin_lpr accepts)
                     3 office_with_personal office_unique_ids _) 1 _).
    + eexists; reflexivity.
    + reflexivity.
Defined.

(** ** The failure message is one printable line *)

Lemma printable_string_append (a b : string) :
  printable_string (a +:+ b)
  = (printable_string a && printable_string b)%bool.
Proof.
  unfold printable_string.
  induction a as [|c a IH]; [reflexivity |].
  rewrite append_cons. simpl. rewrite IH. now rewrite andb_assoc.
Qed.

Lemma repr_byte_printable (quote : ascii) (b : byte) :
  quote = squote \/ quote = dquote ->
  printable_string (repr_byte quote b) = true.
Proof. intros [-> | ->]; destruct b; reflexivity. Qed.

Lemma bytes_repr_printable (bs : bytes) :
  printable_string (bytes_repr bs) = true.
Proof.
  unfold bytes_repr.
  set (quote := if (has_byte squote bs && negb (has_byte dquote bs))%bool
                then dquote else squote).
  assert (Hq : quote = squote \/ quote = dquote).
  { unfold quote. destruct (_ && _)%bool; auto. }
  assert (Hbody : printable_string
                    (String.concat EmptyString (map (repr_byte quote) bs))
                  = true).
  { clearbody quote. induction bs as [|b bs IH]; [reflexivity |].
    change (map (repr_byte quote) (b :: bs))
      with (repr_byte quote b :: map (repr_byte quote) bs).
    rewrite concat_empty_cons, printable_string_append, IH,
      (repr_byte_printable quote b Hq).
    reflexivity. }
  change (String quote
            (String.concat EmptyString (map (repr_byte quote) bs)))
    with (String quote EmptyString
          +:+ String.concat EmptyString (map (repr_byte quote) bs)).
  rewrite !printable_string_append, Hbody.
  clearbody quote. destruct Hq as [-> | ->]; reflexivity.
Qed.

Lemma string_of_uint_printable (d : Decimal.uint) :
  printable_string (NilEmpty.string_of_uint d) = true.
Proof. induction d; simpl; auto. Qed.

Lemma str_int_printable (z : Z) : printable_string (str_int z) = true.
Proof.
  unfold str_int, NilZero.string_of_int, NilZero.string_of_uint.
  destruct (Z.to_int z) as [d|d]; destruct d;
    try reflexivity; simpl; apply string_of_uint_printable.
Qed.

(** X12: the only [UserError] the loop body raises is the lpr failure: when
    it raises one, the print command of that printer has exited with a
    status other than zero and the message is
    "lpr failed (error code: <status>). Message: <output>" for that status
    and the output captured.  That message consists of printable ASCII
    whatever the child process wrote: line feeds, control characters and
    bytes above 126 of the captured output never reach it unescaped. *)
Theorem X12_failure_message_printable (env : Env) (lpr_exec : string)
    (document : bytes) (title : option string) (copies : Z) (printer : nat)
    (w : World) (msg : string) (w' : World) :
  spool_lpr_one env lpr_exec document title copies printer w
  = (Raised (UserError msg), w') ->
  (exists rc out,
      popen env (spawned w)
        (command_for lpr_exec document title copies w printer) = (rc, out) /\
      rc <> 0%Z /\
      msg = "lpr failed (error code: " +:+ str_int rc
            +:+ "). Message: " +:+ bytes_repr out) /\
  printable_string msg = true.
Proof.
  unfold spool_lpr_one, bind, read_queue, communicate, command_for.
  destruct (browse w printer) as [row|]; [| discriminate].
  simpl.
  destruct (popen env (spawned w) _) as [rc out].
  simpl.
  destruct (Z.eqb_spec rc 0) as [Hrc|Hrc]; simpl; [discriminate |].
  intros H. inversion H; subst. split.
  - exists rc, out. split; [reflexivity |]. split; [exact Hrc | reflexivity].
  - rewrite !printable_string_append, str_int_printable,
      bytes_repr_printable.
    reflexivity.
Qed.

Lemma X12_failure_message_printable_witness :
  printable_string
    ("lpr failed (error code: 1). Message: b'out of paper\n'") = true.
Proof.
  apply (X12_failure_message_printable
           (host "posix" usr_bin_lpr (rejects ("out of paper" +:+ LF)))
           "/usr/bin/lpr" pdf None 1 1 office _
           (with_spawned [{| argv := ["/usr/bin/lpr"; "-P"; "officeA"];
                             stdin := pdf |}] office)).
  reflexivity.
Defined.

(** ** The exclusion constraint at work *)

Lemma excluded_true ids rows p q :
  In p rows -> In q rows ->
  mem (Printer.id p) ids = true ->
  Printer.is_default p = true -> Printer.is_default q = true ->
  Printer.id q <> Printer.id p ->
  excluded ids rows = true.
Proof.
  intros Hp Hq Hmem Hdp Hdq Hne. unfold excluded.
  apply existsb_exists. exists p. split; [assumption |].
  rewrite Hmem, Hdp. simpl.
  apply existsb_exists. exists q. split; [assumption |].
  rewrite Hdq, andb_true_r. apply negb_true_iff, Nat.eqb_neq. exact Hne.
Qed.

(** X13: while some printer is flagged as system default, an update that
    flags another existing printer is refused with the [single_default]
    integrity error and changes nothing; an update that clears flags is
    never refused by the constraint. *)
Theorem X13_second_default_refused (w : World) (p : Printer.t) (q : nat) :
  In p (print_printer w) ->
  Printer.is_default p = true ->
  Printer.id p <> q ->
  In q (map Printer.id (print_printer w)) ->
  write_is_default [q] true w = (Raised (IntegrityError "single_default"), w)
  /\
  forall ids constraint,
    fst (write_is_default ids false w) <> Raised (IntegrityError constraint).
Proof.
  intros Hp Hdp Hne Hq. split.
  - apply in_map_iff in Hq as (r & Hr & Hrin).
    unfold write_is_default.
    rewrite (excluded_true [q] _ (Printer.set_is_default true r) p);
      [reflexivity | | | | reflexivity | assumption
       | simpl; rewrite Hr; exact Hne].
    + unfold update_rows. apply in_map_iff. exists r.
      split; [| assumption].
      unfold mem. simpl. now rewrite Hr, Nat.eqb_refl.
    + unfold update_rows. apply in_map_iff. exists p.
      split; [| assumption].
      unfold mem. simpl.
      destruct (Nat.eqb_spec (Printer.id p) q); [contradiction | reflexivity].
    + unfold mem. simpl. now rewrite Hr, Nat.eqb_refl.
  - intros ids constraint. unfold write_is_default.
    destruct ids as [|i ids]; [discriminate |].
    rewrite excluded_no_default.
    + destruct (forallb _ _); discriminate.
    + intros r Hr Hmem. unfold update_rows in Hr.
      apply in_map_iff in Hr as (r0 & <- & _).
      revert Hmem.
      destruct (mem (Printer.id r0) (i :: ids)) eqn:Hm; [reflexivity |].
      intros Hmem. rewrite Hm in Hmem. discriminate Hmem.
Qed.

Lemma X13_second_default_refused_witness :
  write_is_default [3] true office
  = (Raised (IntegrityError "single_default"), office).
Proof.
  apply (X13_second_default_refused office warehouse 3).
  - simpl. auto.
  - reflexivity.
  - discriminate.
  - simpl. auto.
Defined.

Lemma sole_element (l : list nat) (p : nat) :
  List.NoDup l -> In p l -> (forall i, In i l -> i = p) -> l = [p].
Proof.
  intros Hnd Hin Hall. destruct l as [|a [|b l]].
  - destruct Hin.
  - now rewrite (Hall a (or_introl eq_refl)).
  - exfalso. inversion Hnd as [|? ? Hnotin _]; subst. apply Hnotin.
    rewrite (Hall a), <- (Hall b); simpl; auto.
Qed.

(** X14: in a registry with unique ids, whenever the final update of a call
    of [set_system_default] goes through, in whatever state other calls have
    left the registry, the printer of that call is at that moment the one
    and only system default. *)
Theorem X14_successful_setter_holds_default (w : World) (p : nat)
    (w' : World) :
  unique_ids w ->
  call_step (Setting p) w = (Done (Returned true), w') ->
  system_defaults w' = [p] /\ unique_ids w'.
Proof.
  intros Hu Hstep. cbn -[write_is_default] in Hstep.
  destruct (write_is_default [p] true w) as [[e|[]] w1] eqn:Hw;
    inversion Hstep; subst w1.
  unfold write_is_default in Hw.
  destruct (excluded [p] _) eqn:Hex; [discriminate Hw |].
  destruct (forallb _ _) eqn:Hall; [| discriminate Hw].
  inversion Hw; subst w'. clear Hw Hstep.
  assert (Hu' : unique_ids
                  (with_printers (update_rows [p] true (print_printer w)) w)).
  { unfold unique_ids. simpl. rewrite update_rows_ids. exact Hu. }
  split; [| exact Hu'].
  simpl in Hall. rewrite andb_true_r in Hall.
  apply mem_In, in_map_iff in Hall as (r & Hr & Hrin).
  assert (Hrow : In (Printer.set_is_default true r)
                    (update_rows [p] true (print_printer w))).
  { unfold update_rows. apply in_map_iff. exists r. split; [| assumption].
    unfold mem. simpl. now rewrite Hr, Nat.eqb_refl. }
  apply sole_element.
  - apply NoDup_map_filter, Hu'.
  - apply system_defaults_spec. exists (Printer.set_is_default true r).
    simpl. auto.
  - intros i Hi. apply system_defaults_spec in Hi as (q & Hq & <- & Hdq).
    simpl in Hq.
    rewrite (excluded_false [p] _ (Printer.set_is_default true r) q Hex
               Hrow Hq); simpl; auto.
    unfold mem. simpl. now rewrite Hr, Nat.eqb_refl.
Qed.

Lemma X14_successful_setter_holds_default_witness :
  system_defaults
    (with_printers
       [Printer.set_is_default true front_desk;
        Printer.set_is_default false warehouse;
        local_printer] office)
  = [1].
Proof.
  refine (proj1 (X14_successful_setter_holds_default
                   (with_printers
                      [front_desk; Printer.set_is_default false warehouse;
                       local_printer] office)
                   1 _ _ _)).
  - unfold unique_ids. simpl.
    repeat (constructor; [simpl; intuition discriminate |]). constructor.
  - reflexivity.
Defined.

(** ** Explicit printers and personal defaults *)

Lemma spool_lpr_one_user env lpr_exec document title copies i u p w :
  spool_lpr_one env lpr_exec document title copies i (with_user_printer u p w)
  = (fst (spool_lpr_one env lpr_exec document title copies i w),
     with_user_printer u p
       (snd (spool_lpr_one env lpr_exec document title copies i w))).
Proof.
  unfold spool_lpr_one, bind, read_queue, communicate.
  change (browse (with_user_printer u p w) i) with (browse w i).
  destruct (browse w i) as [row|]; [| reflexivity].
  simpl. destruct (negb _); reflexivity.
Qed.

Lemma for_each_user env lpr_exec document title copies u p printers :
  forall w,
    for_each printers (spool_lpr_one env lpr_exec document title copies)
      (with_user_printer u p w)
    = (fst (for_each printers
              (spool_lpr_one env lpr_exec document title copies) w),
       with_user_printer u p
         (snd (for_each printers
                 (spool_lpr_one env lpr_exec document title copies) w))).
Proof.
  induction printers as [|i rest IH]; intros w; [reflexivity |].
  change (for_each (i :: rest) ?b ?x)
    with (bind (b i) (fun _ => for_each rest b) x).
  unfold bind. rewrite spool_lpr_one_user.
  destruct (spool_lpr_one env lpr_exec document title copies i w)
    as [[e|[]] w1]; [reflexivity |].
  simpl fst. simpl snd. apply IH.
Qed.

(** X15: a request that names its printers never depends on a personal
    default: with a recordset that is not empty, [spool] has the same
    outcome and starts the same processes whatever printer any user has
    chosen, and leaves that choice in place. *)
Theorem X15_explicit_ignores_personal (env : Env) (self : recordset)
    (document : bytes) (title : option string) (copies : Z) (u p : nat)
    (w : World) :
  self <> [] ->
  spool env self document title copies (with_user_printer u p w)
  = (fst (spool env self document title copies w),
     with_user_printer u p (snd (spool env self document title copies w))).
Proof.
  intros Hself. unfold spool, _spool_lpr, _find_lpr_exec, bind.
  destruct (String.eqb (os_name env) "posix"); [| reflexivity].
  destruct (find_in_path env "lpr") as [lpr_exec|]; [| reflexivity].
  unfold ret at 1 3 5.
  assert (Hres : forall x, _printers env self x = (Returned self, x)).
  { intros x. unfold _printers. destruct self; [congruence | reflexivity]. }
  rewrite !Hres, for_each_user.
  destruct (for_each self _ w) as [[e|[]] w1]; reflexivity.
Qed.

Lemma X15_explicit_ignores_personal_witness :
  spool (host "posix" usr_bin_lpr accepts) [2] pdf None 1 office_with_personal
  = (fst (spool (host "posix" usr_bin_lpr accepts) [2] pdf None 1 office),
     with_user_printer 7 1
       (snd (spool (host "posix" usr_bin_lpr accepts) [2] pdf None 1 office))).
Proof.
  apply (X15_explicit_ignores_personal (host "posix" usr_bin_lpr accepts) [2]
           pdf None 1 7 1 office).
  discriminate.
Defined.

Lemma X9_personal_default_used_witness :
  fst (_printers (host_of 8 (host "posix" usr_bin_lpr accepts)) []
         (snd (set_user_default (host "posix" usr_bin_lpr accepts) [3] office)))
  = fst (_printers (host_of 8 (host "posix" usr_bin_lpr accepts)) [] office).
Proof.
  refine (proj2 (proj2 (X9_personal_default_used
                          (host "posix" usr_bin_lpr accepts) 3 office))
            8 [] _).
  simpl. lia.
Defined.
